(** * Temporal landing zone and persistence loader: a shallow embedding

    The development follows the two Python classes of the repository,
    [DataCollector] (src/data/data_collector.py) and [PersistenceLoader]
    (src/data/persistence_loader.py).

    - Python text is a [string]: a sequence of bytes holding UTF-8 text, so
      that [.encode('utf-8')] is the identity on this representation.
    - Python exceptions are an error monad over an explicit state; the
      state of a run records what was sent to the external systems (the
      trace of [table.put] calls, of [makedirs] calls, of file writes, the
      log records) and the shared connection handle.
    - Every call into an external system (HDFS, HBase, HTTP, the local
      file system) may raise: a fault schedule says which call, counted
      from the start of the run, raises which exception. *)

From Stdlib Require Import ZArith Ascii String List Lia Bool.
From stdpp Require Import base list strings gmap pretty.

Local Open Scope Z_scope.

(** ** Python primitives used by the two classes *)
Module Py.

(** [a == c] on characters. *)
Definition ch_eq (a c : ascii) : bool := Ascii.eqb a c.

Definition underscore : ascii := "_"%char.
Definition dot : ascii := "."%char.
Definition slash : ascii := "/"%char.
Definition backslash : ascii := "\"%char.
Definition colon : ascii := ":"%char.
Definition squote : ascii := "'"%char.
Definition dquote : ascii := Ascii.ascii_of_nat 34.

(** [s.split(c)] for a one-character separator: never empty, keeps empty
    tokens. *)
Fixpoint split (c : ascii) (s : string) : list string :=
  match s with
  | EmptyString => [EmptyString]
  | String a s' =>
      if ch_eq a c then EmptyString :: split c s'
      else match split c s' with
           | [] => [String a EmptyString]
           | t :: ts => String a t :: ts
           end
  end.

(** [sep.join(l)]. *)
Fixpoint join (sep : string) (l : list string) : string :=
  match l with
  | [] => ""
  | [x] => x
  | x :: rest => x +:+ sep +:+ join sep rest
  end.

(** [l[0]] on the result of a split, which is never empty. *)
Definition first_token (c : ascii) (s : string) : string :=
  match split c s with
  | [] => ""
  | t :: _ => t
  end.

(** [l[1:]]. *)
Definition drop_first {A} (l : list A) : list A :=
  match l with
  | [] => []
  | _ :: r => r
  end.

Definition startswith (s p : string) : bool := String.prefix p s.

Definition endswith (s suf : string) : bool :=
  let n := String.length s in
  let m := String.length suf in
  if (m <=? n)%nat then String.eqb (String.substring (n - m) m s) suf
  else false.

(** [s.replace(a, b)] for single characters. *)
Fixpoint replace (a b : ascii) (s : string) : string :=
  match s with
  | EmptyString => EmptyString
  | String c s' => String (if ch_eq c a then b else c) (replace a b s')
  end.

(** [s.replace('\\', '/')], applied to every path the classes build. *)
Definition unixify (s : string) : string := replace backslash slash s.

(** Whitespace of [bytes.strip()]: space, tab, newline, return, vertical
    tab, form feed. *)
Definition is_space (a : ascii) : bool :=
  let n := nat_of_ascii a in
  (n =? 32)%nat || ((9 <=? n)%nat && (n <=? 13)%nat).

Fixpoint lstrip (s : string) : string :=
  match s with
  | EmptyString => EmptyString
  | String a s' => if is_space a then lstrip s' else s
  end.

Fixpoint rstrip (s : string) : string :=
  match s with
  | EmptyString => EmptyString
  | String a s' =>
      match rstrip s' with
      | EmptyString => if is_space a then EmptyString else String a EmptyString
      | r => String a r
      end
  end.

Definition strip (s : string) : string := rstrip (lstrip s).

(** [posixpath.join]: an absolute component restarts the path, a separator
    is inserted unless the path so far is empty or ends with one. *)
Definition join2 (path b : string) : string :=
  if startswith b "/" then b
  else if String.eqb path "" || endswith path "/" then path +:+ b
  else path +:+ "/" +:+ b.

Definition path_join (a : string) (ps : list string) : string :=
  fold_left join2 ps a.

(** Position one past the last ['/'] ([p.rfind('/') + 1]). *)
Fixpoint after_last_slash (p : string) : nat :=
  match p with
  | EmptyString => 0%nat
  | String a p' =>
      match after_last_slash p' with
      | O => if ch_eq a slash then 1%nat else 0%nat
      | S k => S (S k)
      end
  end.

(** [posixpath.basename]. *)
Definition basename (p : string) : string :=
  let i := after_last_slash p in
  String.substring i (String.length p - i) p.

Fixpoint all_slashes (s : string) : bool :=
  match s with
  | EmptyString => true
  | String a s' => ch_eq a slash && all_slashes s'
  end.

Fixpoint rstrip_slash (s : string) : string :=
  match s with
  | EmptyString => EmptyString
  | String a s' =>
      match rstrip_slash s' with
      | EmptyString => if ch_eq a slash then EmptyString else String a EmptyString
      | r => String a r
      end
  end.

(** [posixpath.dirname]. *)
Definition dirname (p : string) : string :=
  let head := String.substring 0 (after_last_slash p) p in
  if negb (String.eqb head "") && negb (all_slashes head)
  then rstrip_slash head else head.

(** [l[-1]] on the result of a split. *)
Definition last_token (c : ascii) (s : string) : string :=
  List.last (split c s) "".

(** [str(n)] for a Python int. *)
Definition str_of_int (z : Z) : string := pretty z.

(** [str(len(l))]. *)
Definition str_of_len {A} (l : list A) : string :=
  str_of_int (Z.of_nat (length l)).

(** *** Values read from JSON files, and how Python prints them *)

(** A value as [json.load] returns it, extended with [PBytes] for the
    result of [.encode('utf-8')].  A float carries the text Python prints
    for it; a dict is its items in insertion order. *)
#[warnings="-register-all"]
Inductive pyval : Type :=
| PNone
| PBool (b : bool)
| PInt (z : Z)
| PFloat (printed : string)
| PStr (s : string)
| PBytes (s : string)
| PList (l : list pyval)
| PDict (d : list (string * pyval)).

Fixpoint contains (c : ascii) (s : string) : bool :=
  match s with
  | EmptyString => false
  | String a s' => ch_eq a c || contains c s'
  end.

(** The quote [repr] chooses: double quotes only when the text holds a
    single quote and no double quote. *)
Definition repr_quote (s : string) : ascii :=
  if contains squote s && negb (contains dquote s) then dquote else squote.

Definition hex_digit (n : nat) : ascii :=
  if (n <? 10)%nat then ascii_of_nat (48 + n) else ascii_of_nat (87 + n).

(** One byte inside [repr]: the quote and the backslash are escaped, tab,
    newline and return have their letters, other control bytes and bytes
    from 0x7f on are written [\xhh]. *)
Definition repr_byte (q a : ascii) : string :=
  let n := nat_of_ascii a in
  if ch_eq a q || ch_eq a backslash then String backslash (String a "")
  else if (n =? 9)%nat then "\t"
  else if (n =? 10)%nat then "\n"
  else if (n =? 13)%nat then "\r"
  else if (n <? 32)%nat || (127 <=? n)%nat
       then String backslash (String "x" (String (hex_digit (n / 16))
              (String (hex_digit (n mod 16)) "")))
  else String a "".

Fixpoint repr_body (q : ascii) (s : string) : string :=
  match s with
  | EmptyString => EmptyString
  | String a s' => repr_byte q a +:+ repr_body q s'
  end.

Definition quoted (s : string) : string :=
  let q := repr_quote s in
  String q (repr_body q s +:+ String q "").

(** [repr(b)] for bytes. *)
Definition repr_bytes (s : string) : string := "b" +:+ quoted s.

Fixpoint ascii_only (s : string) : bool :=
  match s with
  | EmptyString => true
  | String a s' => (nat_of_ascii a <? 128)%nat && ascii_only s'
  end.

(** [repr(s)] for text.  For ASCII text it is the quoted form above; text
    with other characters is printed according to the Unicode tables of
    the interpreter, which are given by [uni]. *)
Definition repr_str (uni : string -> string) (s : string) : string :=
  if ascii_only s then quoted s else uni s.

Definition comma_space (l : list string) : string := join ", " l.

(** [repr(v)]. *)
Fixpoint repr (uni : string -> string) (v : pyval) : string :=
  match v with
  | PNone => "None"
  | PBool true => "True"
  | PBool false => "False"
  | PInt z => str_of_int z
  | PFloat r => r
  | PStr s => repr_str uni s
  | PBytes s => repr_bytes s
  | PList l => "[" +:+ comma_space (map (repr uni) l) +:+ "]"
  | PDict d =>
      "{" +:+ comma_space
                (map (fun kv => repr_str uni (fst kv) +:+ ": " +:+ repr uni (snd kv)) d)
          +:+ "}"
  end.

(** [str(v)], also what an f-string field [{v}] prints. *)
Definition str (uni : string -> string) (v : pyval) : string :=
  match v with
  | PStr s => s
  | _ => repr uni v
  end.

(** [d.get(k, None)] on the items of a dict. *)
Fixpoint dict_get (k : string) (d : list (string * pyval)) : option pyval :=
  match d with
  | [] => None
  | (k', v) :: d' => if String.eqb k' k then Some v else dict_get k d'
  end.

(** *** Dates in file names *)

Definition is_digit (a : ascii) : bool :=
  let n := nat_of_ascii a in (48 <=? n)%nat && (n <=? 57)%nat.

Definition digit (a : ascii) : Z := Z.of_nat (nat_of_ascii a) - 48.

(** Does [\d{4}_\d{2}_\d{2}] match at the start of [s]? *)
Definition date_here (s : string) : bool :=
  match s with
  | String y1 (String y2 (String y3 (String y4 (String u1
      (String m1 (String m2 (String u2 (String d1 (String d2 _))))))))) =>
      is_digit y1 && is_digit y2 && is_digit y3 && is_digit y4 &&
      ch_eq u1 underscore && is_digit m1 && is_digit m2 &&
      ch_eq u2 underscore && is_digit d1 && is_digit d2
  | _ => false
  end.

(** [re.search(r'\d{4}_\d{2}_\d{2}', s)]: the leftmost match, if any.
    The digits are the ASCII ones; file names are taken to hold no digit
    of another script. *)
Fixpoint search_date (s : string) : option string :=
  if date_here s then Some (String.substring 0 10 s)
  else match s with
       | EmptyString => None
       | String _ s' => search_date s'
       end.

Definition is_leap (y : Z) : bool :=
  ((y mod 4 =? 0) && negb (y mod 100 =? 0)) || (y mod 400 =? 0).

Definition days_in_month (y m : Z) : Z :=
  if m =? 2 then (if is_leap y then 29 else 28)
  else if (m =? 4) || (m =? 6) || (m =? 9) || (m =? 11) then 30
  else 31.

(** Year, month and day of a matched date text, as [strptime] with
    ['%Y_%m_%d'] reads them; [None] where it raises [ValueError]: year
    0, month outside 1..12, day outside the month. *)
Definition strptime (date_str : string) : option (Z * Z * Z) :=
  match date_str with
  | String y1 (String y2 (String y3 (String y4 (String _
      (String m1 (String m2 (String _ (String d1 (String d2 EmptyString))))))))) =>
      let y := 1000 * digit y1 + 100 * digit y2 + 10 * digit y3 + digit y4 in
      let m := 10 * digit m1 + digit m2 in
      let d := 10 * digit d1 + digit d2 in
      if (1 <=? y) && (1 <=? m) && (m <=? 12) && (1 <=? d) && (d <=? days_in_month y m)
      then Some (y, m, d) else None
  | _ => None
  end.

(** Days from 1970-01-01 to the given date of the proleptic Gregorian
    calendar. *)
Definition days_from_civil (y m d : Z) : Z :=
  let y' := if m <=? 2 then y - 1 else y in
  let era := y' / 400 in
  let yoe := y' - era * 400 in
  let mp := (m + 9) mod 12 in
  let doy := (153 * mp + 2) / 5 + d - 1 in
  let doe := yoe * 365 + yoe / 4 - yoe / 100 + doy in
  era * 146097 + doe - 719468.

(** Seconds from the epoch to midnight of the date, read as UTC. *)
Definition midnight (ymd : Z * Z * Z) : Z :=
  let '(y, m, d) := ymd in days_from_civil y m d * 86400.

End Py.

(** ** Exceptions, results and the monad of a run *)

(** The exceptions the two classes can meet.  [ExternalError] stands for
    whatever an external library raises (HdfsError, a Thrift transport
    error, a requests exception, OSError, csv.Error, JSONDecodeError). *)
Inductive exn : Type :=
| IndexError
| KeyError (key : string)
| TypeError
| ValueError
| AttributeError
| UnboundLocalError (variable : string)
| ExternalError (what : string).

Inductive result (A : Type) : Type :=
| Ok (a : A)
| Raise (e : exn).
Arguments Ok {A} a.
Arguments Raise {A} e.

(** A record handed to the logger: [logger.info(msg)] or
    [logger.exception(e)]. *)
Inductive log_record : Type :=
| Info (msg : string)
| Exception (e : exn).

(** A computation over a state [S] that returns or raises.  The state
    reached is kept when an exception is raised: what was sent to the
    external systems before the exception stays sent. *)
Definition M (S A : Type) : Type := S -> result A * S.

Section Monad.
Context {S : Type}.

Definition ret {A} (a : A) : M S A := fun s => (Ok a, s).

Definition bind {A B} (m : M S A) (k : A -> M S B) : M S B :=
  fun s => match m s with
           | (Ok a, s') => k a s'
           | (Raise e, s') => (Raise e, s')
           end.

Definition raise {A} (e : exn) : M S A := fun s => (Raise e, s).

Definition gets {A} (f : S -> A) : M S A := fun s => (Ok (f s), s).

Definition modify (f : S -> S) : M S unit := fun s => (Ok tt, f s).

(** [None] raises [e]. *)
Definition or_raise {A} (e : exn) (o : option A) : M S A :=
  match o with
  | Some a => ret a
  | None => raise e
  end.

(** [l[i]]. *)
Definition index {A} (l : list A) (i : nat) : M S A :=
  or_raise IndexError (nth_error l i).

(** [try: body  except Exception as e: handler(e)]. *)
Definition try_except (body : M S unit) (handler : exn -> M S unit) : M S unit :=
  fun s => match body s with
           | (Ok a, s') => (Ok a, s')
           | (Raise e, s') => handler e s'
           end.

(** [for x in l: body(x)]. *)
Fixpoint for_each {A} (l : list A) (body : A -> M S unit) : M S unit :=
  match l with
  | [] => ret tt
  | x :: rest => bind (body x) (fun _ => for_each rest body)
  end.
End Monad.

Notation "x <- c ;; k" := (bind c (fun x => k))
  (at level 100, c at next level, right associativity).
Notation "c ;;; k" := (bind c (fun _ => k))
  (at level 100, right associativity).


(** ** PersistenceLoader (src/data/persistence_loader.py) *)
Module Loader.

(** What surrounds a loader: the constructor arguments, the staged files
    as HDFS serves them, and the parts of the platform the code calls. *)
Record env : Type := {
  (** [faults k = Some e]: the [k]-th external call of the run raises [e]. *)
  faults : nat -> option exn;
  host : string;
  arg_hbase_port : string;
  arg_temporal_landing_dir : string;
  arg_temporal_landing_csv : string;
  arg_temporal_landing_json : string;
  (** [hdfs_client.list(dir)]; [None] when HDFS refuses (no such directory). *)
  hdfs_list : string -> option (list string);
  (** The rows [csv.reader] yields for the file at a path. *)
  hdfs_csv : string -> option (list (list string));
  (** What [json.load] returns for the file at a path. *)
  hdfs_json : string -> option Py.pyval;
  (** [datetime.now().strftime('%Y-%m-%d %H:%M:%S')] at a moment of the run. *)
  clock : nat -> string;
  (** [datetime.timestamp] of a naive datetime: from seconds since the
      epoch read in the local time zone to seconds since the epoch. *)
  mktime : Z -> Z;
  (** [repr] of text with non-ASCII characters. *)
  uni : string -> string;
  (** [int(s)] on text; [None] where it raises [ValueError]. *)
  int_of : string -> option Z
}.

(** One [table.put(row_key, columns)] as HBase receives it. *)
Record put_op : Type := {
  put_table : string;
  put_key : string;
  put_columns : list (string * string)
}.

Record hbase_connection : Type := { conn_host : string; conn_port : Z }.

Record state : Type := {
  (** [self.connection], [None] as in the code. *)
  connection : option hbase_connection;
  (** The tables of the store with their column families. *)
  tables : list (string * list string);
  (** The puts the store received, oldest first. *)
  puts : list put_op;
  (** How many times [connection.close()] was called. *)
  closed : nat;
  log : list log_record;
  (** External calls made so far. *)
  ticks : nat
}.

Definition set_connection (c : option hbase_connection) (s : state) : state :=
  {| connection := c; tables := tables s; puts := puts s;
     closed := closed s; log := log s; ticks := ticks s |}.
Definition add_table (t : string * list string) (s : state) : state :=
  {| connection := connection s; tables := tables s ++ [t]; puts := puts s;
     closed := closed s; log := log s; ticks := ticks s |}.
Definition add_put (p : put_op) (s : state) : state :=
  {| connection := connection s; tables := tables s; puts := puts s ++ [p];
     closed := closed s; log := log s; ticks := ticks s |}.
Definition count_close (s : state) : state :=
  {| connection := connection s; tables := tables s; puts := puts s;
     closed := S (closed s); log := log s; ticks := ticks s |}.
Definition add_log (r : log_record) (s : state) : state :=
  {| connection := connection s; tables := tables s; puts := puts s;
     closed := closed s; log := log s ++ [r]; ticks := ticks s |}.
Definition tick (s : state) : state :=
  {| connection := connection s; tables := tables s; puts := puts s;
     closed := closed s; log := log s; ticks := S (ticks s) |}.

Section WithEnv.
Variable E : env.

(** The attributes [__init__] stores. *)
Definition temporal_landing_dir : string := Py.unixify (arg_temporal_landing_dir E).
Definition temporal_landing_csv : string := Py.unixify (arg_temporal_landing_csv E).
Definition temporal_landing_json : string := Py.unixify (arg_temporal_landing_json E).

(** [self.hbase_port = int(hbase_port)]: unset when [int] raised. *)
Definition hbase_port : option Z := int_of E (arg_hbase_port E).

(** An external call: it raises when the fault schedule says so. *)
Definition ext : M state unit :=
  fun s => match faults E (ticks s) with
           | Some e => (Raise e, tick s)
           | None => (Ok tt, tick s)
           end.

Definition logger_info (msg : string) : M state unit := modify (add_log (Info msg)).
Definition logger_exception (e : exn) : M state unit := modify (add_log (Exception e)).

(** [datetime.datetime.now().strftime(...)]. *)
Definition now : M state string := gets (fun s => clock E (ticks s)).

Definition connect : M state unit :=
  port <- or_raise AttributeError hbase_port ;;
  logger_info ("Connecting to HBase at " +:+ host E +:+ ":" +:+ Py.str_of_int port) ;;;
  ext ;;;
  ext ;;;
  modify (set_connection (Some {| conn_host := host E; conn_port := port |})) ;;;
  logger_info "Successfully connected to HBase".

Definition close : M state unit :=
  c <- gets connection ;;
  match c with
  | Some _ =>
      logger_info "Closing HBase connection" ;;;
      modify count_close ;;;
      modify (set_connection None) ;;;
      logger_info "HBase connection closed"
  | None => ret tt
  end.

(** [self.connection.<method>]: [AttributeError] on [None]. *)
Definition the_connection : M state hbase_connection :=
  c <- gets connection ;; or_raise AttributeError c.

Definition has_table (name : string) (ts : list (string * list string)) : bool :=
  existsb (fun t => String.eqb (fst t) name) ts.

Definition create_table_body (table_name : string) (flag : bool) : M state unit :=
  the_connection ;;;
  ext ;;;
  ts <- gets tables ;;
  if has_table table_name ts then
    logger_info ("Table '" +:+ table_name +:+ "' already exists.")
  else if negb flag then
    ext ;;;
    modify (add_table (table_name, ["data"; "metadata"])) ;;;
    logger_info ("Table '" +:+ table_name +:+ "' created.")
  else
    ext ;;;
    modify (add_table (table_name, ["idealista_data"; "income_data"; "metadata"])) ;;;
    logger_info ("Table '" +:+ table_name +:+ "' created.").

(** The handler every method of the class ends with. *)
Definition on_error (e : exn) : M state unit := close ;;; logger_exception e.

Definition create_table (table_name : string) (flag : bool) : M state unit :=
  try_except (create_table_body table_name flag) on_error.

(** [self.connection.table(table_name)]: a handle, no call to the store. *)
Definition get_table (table_name : string) : M state string :=
  the_connection ;;; ret table_name.

(** [table.put(row_key, columns)]. *)
Definition table_put (table row_key : string) (columns : list (string * string)) : M state unit :=
  ext ;;;
  modify (add_put {| put_table := table; put_key := row_key; put_columns := columns |}).

Definition hdfs_client_list (dir : string) : M state (list string) :=
  ext ;;; or_raise (ExternalError "HdfsError") (hdfs_list E dir).

(** [hdfs_client.read(path, encoding='utf-8')] handed to [csv.reader]. *)
Definition hdfs_client_read_csv (path : string) : M state (list (list string)) :=
  ext ;;; or_raise (ExternalError "HdfsError") (hdfs_csv E path).

(** [json.load] on [hdfs_client.read(path, encoding='utf-8')]. *)
Definition hdfs_client_read_json (path : string) : M state Py.pyval :=
  ext ;;; ext ;;; or_raise (ExternalError "JSONDecodeError") (hdfs_json E path).

(** *** The three CSV handlers

    The three methods repeat one loop: the first row is the header,
    every later row is mapped to a put.  [num_rows], [column_names] and
    [valid_year] are locals of the method; [valid_year] is assigned in
    the loop only, so it is [None] (unbound) until a data row was read,
    and keeps its value from one file to the next. *)

Definition csv_locals : Type := (Z * list string * option string)%type.

Fixpoint csv_rows (row_body : list string -> option string -> M state (option string))
         (rows : list (list string)) (num_rows : Z) (column_names : list string)
         (valid_year : option string) : M state csv_locals :=
  match rows with
  | [] => ret (num_rows, column_names, valid_year)
  | row :: rest =>
      ext ;;;
      if num_rows =? 0 then
        csv_rows row_body rest (num_rows + 1) row valid_year
      else
        valid_year' <- row_body row valid_year ;;
        csv_rows row_body rest (num_rows + 1) column_names valid_year'
  end.

Definition metadata_dict (num_rows : Z) (column_names : list string) (date : string)
  : list (string * string) :=
  [ ("metadata:num_rows", Py.str_of_int (num_rows - 1));
    ("metadata:num_cols", Py.str_of_len column_names);
    ("metadata:column_names", Py.join "," column_names);
    ("metadata:ingestion_date", date) ].

Definition imported (num_rows : string) (table_name filename : string) : string :=
  "Imported " +:+ num_rows +:+ " rows into table '" +:+ table_name
    +:+ "' from file: " +:+ filename +:+ ".".

(** The body of the row loop of [load_opendatabcn_income]. *)
Definition income_row (table_name : string) (row : list string) (_ : option string)
  : M state (option string) :=
  valid_year <- index row 0 ;;
  district_code <- index row 1 ;;
  neighborhood_code <- index row 3 ;;
  let row_key := table_name +:+ "_" +:+ district_code +:+ "_" +:+ neighborhood_code
                   +:+ "_" +:+ valid_year in
  c2 <- index row 2 ;;
  c4 <- index row 4 ;;
  c5 <- index row 5 ;;
  c6 <- index row 6 ;;
  table_put table_name row_key
    [ ("data:District_Name", c2);
      ("data:Neighborhood_Name", c4);
      ("data:Population", c5);
      ("data:Index RFD Barcelona = 100", c6) ] ;;;
  ret (Some valid_year).

(** The body of the row loop of [load_veh_index_motoritzacio]. *)
Definition veh_row (table_name : string) (row : list string) (_ : option string)
  : M state (option string) :=
  valid_year <- index row 0 ;;
  district_code <- index row 1 ;;
  neighborhood_code <- index row 3 ;;
  let row_key := table_name +:+ "_" +:+ district_code +:+ "_" +:+ neighborhood_code
                   +:+ "_" +:+ valid_year in
  c2 <- index row 2 ;;
  c4 <- index row 4 ;;
  c5 <- index row 5 ;;
  c6 <- index row 6 ;;
  c7 <- index row 7 ;;
  table_put table_name row_key
    [ ("data:District_Name", c2);
      ("data:Neighborhood_Name", c4);
      ("data:Seccio_Censal", c5);
      ("data:Tipus_Vehicle", c6);
      ("data:Index_Motoritzacio", c7) ] ;;;
  ret (Some valid_year).

(** The body of the row loop of [load_lookup_tables]; it has no
    [valid_year]. *)
Definition lookup_row (table_name source_name : string) (row : list string)
           (valid_year : option string) : M state (option string) :=
  district_id <- index row 4 ;;
  neighborhood_id <- index row 7 ;;
  let row_key := table_name +:+ "_" +:+ district_id +:+ "_" +:+ neighborhood_id in
  c0 <- index row 0 ;;
  c1 <- index row 1 ;;
  c2 <- index row 2 ;;
  c3 <- index row 3 ;;
  c5 <- index row 5 ;;
  c6 <- index row 6 ;;
  table_put table_name (Py.strip row_key)
    [ (source_name +:+ "_data:district", c0);
      (source_name +:+ "_data:neighborhood", c1);
      (source_name +:+ "_data:district_n_reconciled", c2);
      (source_name +:+ "_data:district_n", c3);
      (source_name +:+ "_data:neighborhood_n_reconciled", c5);
      (source_name +:+ "_data:neighborhood_n", c6) ] ;;;
  ret valid_year.

(** One [.csv] file of the income or of the vehicle handler: the rows,
    then the metadata put under the key built from [valid_year]. *)
Definition yearly_file (row_body : string -> list string -> option string -> M state (option string))
           (table_name csv_dir filename : string) (valid_year : option string)
  : M state (option string) :=
  rows <- hdfs_client_read_csv (Py.unixify (Py.path_join csv_dir [filename])) ;;
  locals <- csv_rows (row_body table_name) rows 0 [] valid_year ;;
  let '(num_rows, column_names, valid_year) := locals in
  date <- now ;;
  let metadata := metadata_dict num_rows column_names date in
  year <- or_raise (UnboundLocalError "valid_year") valid_year ;;
  table_put table_name (table_name +:+ "_" +:+ year +:+ "_metadata") metadata ;;;
  logger_info (imported (Py.str_of_int num_rows) table_name filename) ;;;
  ret valid_year.

Fixpoint yearly_files (row_body : string -> list string -> option string -> M state (option string))
         (table_name csv_dir : string) (filenames : list string)
         (valid_year : option string) : M state unit :=
  match filenames with
  | [] => ret tt
  | filename :: rest =>
      if Py.endswith filename ".csv" then
        valid_year' <- yearly_file row_body table_name csv_dir filename valid_year ;;
        yearly_files row_body table_name csv_dir rest valid_year'
      else yearly_files row_body table_name csv_dir rest valid_year
  end.

Definition csv_dir_of (table_name : string) : string :=
  Py.unixify (Py.path_join temporal_landing_dir [temporal_landing_csv; table_name]).

Definition load_opendatabcn_income_body : M state unit :=
  let table_name := "opendatabcn-income" in
  create_table table_name false ;;;
  table <- get_table table_name ;;
  let csv_dir := csv_dir_of table_name in
  filenames <- hdfs_client_list csv_dir ;;
  yearly_files income_row table csv_dir filenames None.

Definition load_opendatabcn_income : M state unit :=
  try_except load_opendatabcn_income_body on_error.

Definition load_veh_index_motoritzacio_body : M state unit :=
  let table_name := "veh_index_motoritzacio" in
  create_table table_name false ;;;
  table <- get_table table_name ;;
  let csv_dir := csv_dir_of table_name in
  filenames <- hdfs_client_list csv_dir ;;
  yearly_files veh_row table csv_dir filenames None.

Definition load_veh_index_motoritzacio : M state unit :=
  try_except load_veh_index_motoritzacio_body on_error.

(** One [.csv] file of [load_lookup_tables]. *)
Definition lookup_file (table_name csv_dir filename : string) : M state unit :=
  let source_name := Py.first_token Py.underscore filename in
  rows <- hdfs_client_read_csv (Py.unixify (Py.path_join csv_dir [filename])) ;;
  locals <- csv_rows (lookup_row table_name source_name) rows 0 [] None ;;
  let '(num_rows, column_names, _) := locals in
  date <- now ;;
  let metadata := metadata_dict num_rows column_names date in
  table_put table_name (table_name +:+ "_" +:+ source_name +:+ "_metadata") metadata ;;;
  logger_info (imported (Py.str_of_int num_rows) table_name filename).

Definition lookup_files (table_name csv_dir : string) (filenames : list string) : M state unit :=
  for_each filenames (fun filename =>
    if Py.endswith filename ".csv" then lookup_file table_name csv_dir filename
    else ret tt).

Definition load_lookup_tables_body : M state unit :=
  let table_name := "lookup_tables" in
  create_table table_name true ;;;
  table <- get_table table_name ;;
  let csv_dir := csv_dir_of table_name in
  filenames <- hdfs_client_list csv_dir ;;
  lookup_files table csv_dir filenames.

Definition load_lookup_tables : M state unit :=
  try_except load_lookup_tables_body on_error.

(** *** The listings handler *)

(** [extract_timestamp_from_filename]: [AttributeError] when the name
    holds no date ([None.group]), [ValueError] when [strptime] refuses
    the date. *)
Definition extract_timestamp_from_filename (file_name : string) : M state string :=
  date_str <- or_raise AttributeError (Py.search_date file_name) ;;
  ymd <- or_raise ValueError (Py.strptime date_str) ;;
  ret (Py.str_of_int (mktime E (Py.midnight ymd))).

Definition key_fields : list string := ["propertyCode"; "neighborhood"; "district"].

Definition is_key_field (k : string) : bool :=
  existsb (String.eqb k) key_fields.

Definition encode_value (v : Py.pyval) : Py.pyval :=
  match v with
  | Py.PStr s => Py.PBytes s
  | _ => v
  end.

(** [{k: v.encode('utf-8') if isinstance(v, str) else v
      for k, v in property_dict.items() if k not in [...]}]. *)
Definition remaining (d : list (string * Py.pyval)) : list (string * Py.pyval) :=
  map (fun kv => (fst kv, encode_value (snd kv)))
      (filter (fun kv => negb (is_key_field (fst kv))) d).

Definition or_none (o : option Py.pyval) : Py.pyval :=
  match o with
  | Some v => v
  | None => Py.PNone
  end.

(** The body of the loop over the records of one file; it returns
    [valid_time]. *)
Definition idealista_record (table_name filename : string) (property_dict : Py.pyval)
  : M state string :=
  match property_dict with
  | Py.PDict d =>
      property_code <- or_raise (KeyError "propertyCode") (Py.dict_get "propertyCode" d) ;;
      let neighborhood := or_none (Py.dict_get "neighborhood" d) in
      let district := or_none (Py.dict_get "district" d) in
      valid_time <- extract_timestamp_from_filename filename ;;
      let key := Py.str (uni E) property_code +:+ "_" +:+ Py.str (uni E) district
                   +:+ "_" +:+ Py.str (uni E) neighborhood +:+ "_" +:+ valid_time in
      let value := Py.PDict (remaining d) in
      table_put table_name key [ ("data:property_info", Py.str (uni E) value) ] ;;;
      ret valid_time
  | _ => raise TypeError
  end.

Fixpoint idealista_records (table_name filename : string) (data : list Py.pyval)
         (valid_time : option string) : M state (option string) :=
  match data with
  | [] => ret valid_time
  | property_dict :: rest =>
      valid_time' <- idealista_record table_name filename property_dict ;;
      idealista_records table_name filename rest (Some valid_time')
  end.

(** [len(data[0])] and [data[0].keys()] of the metadata row. *)
Definition first_record_keys (data : list Py.pyval) : M state (list string) :=
  first <- index data 0 ;;
  match first with
  | Py.PDict d => ret (map fst d)
  | Py.PList _ | Py.PStr _ | Py.PBytes _ => raise AttributeError
  | _ => raise TypeError
  end.

(** One [.json] file of [load_idealista]. *)
Definition idealista_file (table_name json_dir filename : string)
           (valid_time : option string) : M state (option string) :=
  data <- hdfs_client_read_json (Py.unixify (Py.path_join json_dir [filename])) ;;
  match data with
  | Py.PList records =>
      valid_time <- idealista_records table_name filename records valid_time ;;
      let num_rows := Py.str_of_len records in
      keys <- first_record_keys records ;;
      date <- now ;;
      let metadata :=
        [ ("metadata:num_rows", num_rows);
          ("metadata:num_cols", Py.str_of_len keys);
          ("metadata:column_names", Py.join "," keys);
          ("metadata:ingestion_date", date) ] in
      time <- or_raise (UnboundLocalError "valid_time") valid_time ;;
      table_put table_name (table_name +:+ "_" +:+ time +:+ "_metadata") metadata ;;;
      logger_info (imported num_rows table_name filename) ;;;
      ret valid_time
  | Py.PDict [] => raise (KeyError "0")
  | Py.PStr EmptyString => raise IndexError
  | _ => raise TypeError
  end.

Fixpoint idealista_files (table_name json_dir : string) (filenames : list string)
         (valid_time : option string) : M state unit :=
  match filenames with
  | [] => ret tt
  | filename :: rest =>
      if Py.endswith filename ".json" then
        valid_time' <- idealista_file table_name json_dir filename valid_time ;;
        idealista_files table_name json_dir rest valid_time'
      else idealista_files table_name json_dir rest valid_time
  end.

Definition json_dir_of (table_name : string) : string :=
  Py.unixify (Py.path_join temporal_landing_dir [temporal_landing_json; table_name]).

Definition load_idealista_body : M state unit :=
  let table_name := "idealista" in
  create_table table_name false ;;;
  table <- get_table table_name ;;
  let json_dir := json_dir_of table_name in
  filenames <- hdfs_client_list json_dir ;;
  idealista_files table json_dir filenames None.

Definition load_idealista : M state unit :=
  try_except load_idealista_body on_error.

(** [__init__]: the conversion of the port and the HDFS client come
    before the [try]; only [connect] is inside it. *)
Definition init : M state unit :=
  modify (set_connection None) ;;;
  or_raise ValueError hbase_port ;;;
  ext ;;;
  logger_info "Connection to HDFS has been established successfully." ;;;
  try_except connect (fun e => logger_exception e ;;; close).

End WithEnv.
End Loader.

(** ** DataCollector (src/data/data_collector.py) *)
Module Collector.

Record env : Type := {
  faults : nat -> option exn;
  arg_global_data_dir : string;
  arg_temporal_landing_dir : string;
  arg_temporal_landing_csv : string;
  arg_temporal_landing_json : string;
  open_data_api_key : string;
  (** [glob.glob(pattern, recursive=True)] on the local file system. *)
  glob : string -> list string;
  (** The rows [csv.reader] yields for a local file. *)
  local_csv : string -> option (list (list string));
  (** [json.dumps(json.load(f))] for a local file. *)
  local_json : string -> option string;
  (** [response.json()['result']['resources']] of the catalog answer. *)
  catalog : string -> option (list Py.pyval);
  (** [requests.get(url).content]. *)
  http_content : string -> option string
}.

Record hdfs_client : Type := { client_url : string; client_user : string }.

Record state : Type := {
  (** [self.client]; [None] while the attribute is not set. *)
  client : option hdfs_client;
  (** The paths that exist on HDFS. *)
  hdfs_paths : gset string;
  (** The [makedirs] calls HDFS received, oldest first. *)
  makedirs_calls : list string;
  (** The files written, as path and content, oldest first. *)
  writes : list (string * string);
  (** How many times [client.close()] was called. *)
  closed : nat;
  log : list log_record;
  ticks : nat
}.

Definition set_client (c : option hdfs_client) (s : state) : state :=
  {| client := c; hdfs_paths := hdfs_paths s; makedirs_calls := makedirs_calls s;
     writes := writes s; closed := closed s; log := log s; ticks := ticks s |}.
Definition count_close (s : state) : state :=
  {| client := client s; hdfs_paths := hdfs_paths s; makedirs_calls := makedirs_calls s;
     writes := writes s; closed := S (closed s); log := log s; ticks := ticks s |}.
Definition add_log (r : log_record) (s : state) : state :=
  {| client := client s; hdfs_paths := hdfs_paths s; makedirs_calls := makedirs_calls s;
     writes := writes s; closed := closed s; log := log s ++ [r]; ticks := ticks s |}.
Definition tick (s : state) : state :=
  {| client := client s; hdfs_paths := hdfs_paths s; makedirs_calls := makedirs_calls s;
     writes := writes s; closed := closed s; log := log s; ticks := S (ticks s) |}.

(** A path with the directories above it: the prefixes that end before a
    ['/'], the empty one left out. *)
Fixpoint prefixes (done todo : string) : list string :=
  match todo with
  | EmptyString => [done]
  | String a rest =>
      let next := prefixes (done +:+ String a "") rest in
      if Py.ch_eq a Py.slash && negb (String.eqb done "") then done :: next else next
  end.

(** [makedirs(path)] on HDFS: the directory and its missing parents exist
    afterwards. *)
Definition do_makedirs (path : string) (s : state) : state :=
  {| client := client s;
     hdfs_paths := list_to_set (prefixes "" path) ∪ hdfs_paths s;
     makedirs_calls := makedirs_calls s ++ [path];
     writes := writes s; closed := closed s; log := log s; ticks := ticks s |}.

(** [client.write(path, overwrite=True)] with the whole content. *)
Definition do_write (path data : string) (s : state) : state :=
  {| client := client s;
     hdfs_paths := list_to_set (prefixes "" path) ∪ hdfs_paths s;
     makedirs_calls := makedirs_calls s;
     writes := writes s ++ [(path, data)];
     closed := closed s; log := log s; ticks := ticks s |}.

Section WithEnv.
Variable E : env.

Definition global_data_dir : string := Py.unixify (arg_global_data_dir E).
Definition temporal_landing_dir : string := Py.unixify (arg_temporal_landing_dir E).
Definition temporal_landing_csv : string := Py.unixify (arg_temporal_landing_csv E).
Definition temporal_landing_json : string := Py.unixify (arg_temporal_landing_json E).

Definition ext : M state unit :=
  fun s => match faults E (ticks s) with
           | Some e => (Raise e, tick s)
           | None => (Ok tt, tick s)
           end.

Definition logger_info (msg : string) : M state unit := modify (add_log (Info msg)).
Definition logger_exception (e : exn) : M state unit := modify (add_log (Exception e)).

(** [self.client]: [AttributeError] while the attribute is not set. *)
Definition the_client : M state hdfs_client :=
  c <- gets client ;; or_raise AttributeError c.

(** [self.client.close()]. *)
Definition client_close : M state unit :=
  the_client ;;; modify count_close.

(** The handler every method of the class ends with. *)
Definition on_error (e : exn) : M state unit := client_close ;;; logger_exception e.

(** [self.client.status(folder, strict=False) is None]. *)
Definition status_is_none (folder : string) : M state bool :=
  the_client ;;;
  ext ;;;
  gets (fun s => negb (bool_decide (folder ∈ hdfs_paths s))).

Definition create_hdfs_dir_body (folder : string) : M state unit :=
  absent <- status_is_none folder ;;
  if absent then
    ext ;;;
    modify (do_makedirs folder) ;;;
    logger_info ("Directory " +:+ folder +:+ " created successfully.")
  else
    logger_info ("Directory " +:+ folder +:+ " already exists.").

Definition create_hdfs_dir (folder : string) : M state unit :=
  try_except (create_hdfs_dir_body folder) on_error.

(** [with self.client.write(path, overwrite=True) as writer:
      writer.write(data)]. *)
Definition client_write (path data : string) : M state unit :=
  the_client ;;;
  ext ;;;
  modify (do_write path data).

Definition upload_file_to_hdfs_body (filepath data_bytes hdfs_dir_path : string)
  : M state unit :=
  let hdfs_file_path := Py.unixify (Py.path_join hdfs_dir_path [Py.basename filepath]) in
  client_write hdfs_file_path data_bytes ;;;
  let filepath := Py.unixify filepath in
  logger_info ("File " +:+ filepath +:+ " uploaded to " +:+ hdfs_file_path
                 +:+ " successfully.").

Definition upload_file_to_hdfs (filepath data_bytes hdfs_dir_path : string)
  : M state unit :=
  try_except (upload_file_to_hdfs_body filepath data_bytes hdfs_dir_path) on_error.

Definition newline : string := String (ascii_of_nat 10) "".

(** The staging folder of a local file: the name of its directory. *)
Definition staging_folder (temp_dir filepath : string) : string :=
  let dirname := Py.unixify (Py.dirname filepath) in
  let folder_name := Py.last_token Py.slash dirname in
  Py.unixify (Py.path_join temp_dir [folder_name]).

Definition upload_csv_files_to_hdfs_body (hdfs_dir : string) : M state unit :=
  ext ;;;
  let csv_files := glob E (Py.unixify (Py.path_join global_data_dir ["**/*.csv"])) in
  let temp_csv_dir := Py.unixify (Py.path_join temporal_landing_dir [hdfs_dir]) in
  create_hdfs_dir temp_csv_dir ;;;
  for_each csv_files (fun filepath =>
    let hdfs_dir_path := staging_folder temp_csv_dir filepath in
    create_hdfs_dir hdfs_dir_path ;;;
    ext ;;;
    rows <- or_raise (ExternalError "OSError") (local_csv E filepath) ;;
    let data_bytes := Py.join newline (map (Py.join ",") rows) in
    upload_file_to_hdfs filepath data_bytes hdfs_dir_path).

Definition upload_csv_files_to_hdfs (hdfs_dir : string) : M state unit :=
  try_except (upload_csv_files_to_hdfs_body hdfs_dir) on_error.

Definition upload_json_files_to_hdfs_body (hdfs_dir : string) : M state unit :=
  ext ;;;
  let json_files := glob E (Py.unixify (Py.path_join global_data_dir ["**/*.json"])) in
  let temp_json_dir := Py.unixify (Py.path_join temporal_landing_dir [hdfs_dir]) in
  create_hdfs_dir temp_json_dir ;;;
  for_each json_files (fun filepath =>
    let hdfs_dir_path := staging_folder temp_json_dir filepath in
    create_hdfs_dir hdfs_dir_path ;;;
    ext ;;;
    data_bytes <- or_raise (ExternalError "JSONDecodeError") (local_json E filepath) ;;
    upload_file_to_hdfs filepath data_bytes hdfs_dir_path).

Definition upload_json_files_to_hdfs (hdfs_dir : string) : M state unit :=
  try_except (upload_json_files_to_hdfs_body hdfs_dir) on_error.

(** [r[k]] on a resource of the catalog. *)
Definition subscript (r : Py.pyval) (k : string) : M state Py.pyval :=
  match r with
  | Py.PDict d => or_raise (KeyError k) (Py.dict_get k d)
  | _ => raise TypeError
  end.

(** [name.split(".")[0].split("_")[1:]] joined with ["_"]. *)
Definition data_name_str (name : string) : string :=
  let x := Py.drop_first (Py.split Py.underscore (Py.first_token Py.dot name)) in
  Py.join "_" x.

Definition new_folder_of (name : string) : string :=
  Py.unixify (Py.path_join temporal_landing_dir [temporal_landing_csv; data_name_str name]).

(** The body of the loop over the resources of the catalog answer. *)
Definition download_resource (r : Py.pyval) : M state unit :=
  csv_url <- subscript r "url" ;;
  name <- subscript r "name" ;;
  match name with
  | Py.PStr name =>
      let new_folder := new_folder_of name in
      create_hdfs_dir new_folder ;;;
      ext ;;;
      content <- or_raise (ExternalError "RequestException")
                   (match csv_url with
                    | Py.PStr u => http_content E u
                    | _ => None
                    end) ;;
      let filepath := Py.unixify (Py.path_join new_folder [name]) in
      client_write filepath content
  | _ => raise AttributeError
  end.

Definition package_show_url (dataset_id : string) : string :=
  "https://opendata-ajuntament.barcelona.cat/data/api/3/action/package_show?id="
    +:+ dataset_id.

Definition download_from_opendata_api_to_hdfs_body : M state unit :=
  let dataset_id := "est_vehicles_index_motor" in
  let url := package_show_url dataset_id in
  ext ;;;
  ext ;;;
  resources <- or_raise (ExternalError "RequestException") (catalog E url) ;;
  for_each resources download_resource.

Definition download_from_opendata_api_to_hdfs : M state unit :=
  try_except download_from_opendata_api_to_hdfs_body on_error.

(** [__init__]: the client is built inside the [try], so the handler
    may run while [self.client] is not set. *)
Definition init (hdfs_host hdfs_port hdfs_user : string) : M state unit :=
  modify (set_client None) ;;;
  try_except
    (ext ;;;
     modify (set_client (Some {| client_url := "http://" +:+ hdfs_host +:+ ":" +:+ hdfs_port;
                                 client_user := hdfs_user |})) ;;;
     logger_info "Connection to HDFS has been established successfully." ;;;
     create_hdfs_dir (Py.path_join temporal_landing_dir []))
    on_error.

End WithEnv.
End Collector.

(** ** The store behind the puts *)
Module HBase.

(** The cells of the store: table and row key to column to value.  A put
    writes its columns into the row and leaves the other columns of the
    row as they are; a column written again is overwritten. *)
Definition put (p : Loader.put_op) (cells : gmap (string * string) (gmap string string))
  : gmap (string * string) (gmap string string) :=
  let k := (Loader.put_table p, Loader.put_key p) in
  <[ k := list_to_map (Loader.put_columns p) ∪ default ∅ (cells !! k) ]> cells.

(** The column family of a column written [family:qualifier]. *)
Definition column_family (column : string) : string :=
  Py.first_token Py.colon column.

End HBase.

(** ** Rows, puts and predicates of the specification *)

(** [row[i]] of a row that is long enough. *)
Definition cell (row : list string) (i : nat) : string := nth i row "".

(** The value stored under a column of a put. *)
Fixpoint column (name : string) (columns : list (string * string)) : option string :=
  match columns with
  | [] => None
  | (k, v) :: rest => if String.eqb k name then Some v else column name rest
  end.

(** The put of one data row of the income handler. *)
Definition income_put (table_name : string) (row : list string) : Loader.put_op :=
  {| Loader.put_table := table_name;
     Loader.put_key := table_name +:+ "_" +:+ cell row 1 +:+ "_" +:+ cell row 3
                         +:+ "_" +:+ cell row 0;
     Loader.put_columns :=
       [ ("data:District_Name", cell row 2);
         ("data:Neighborhood_Name", cell row 4);
         ("data:Population", cell row 5);
         ("data:Index RFD Barcelona = 100", cell row 6) ] |}.

(** The put of one data row of the vehicle handler. *)
Definition veh_put (table_name : string) (row : list string) : Loader.put_op :=
  {| Loader.put_table := table_name;
     Loader.put_key := table_name +:+ "_" +:+ cell row 1 +:+ "_" +:+ cell row 3
                         +:+ "_" +:+ cell row 0;
     Loader.put_columns :=
       [ ("data:District_Name", cell row 2);
         ("data:Neighborhood_Name", cell row 4);
         ("data:Seccio_Censal", cell row 5);
         ("data:Tipus_Vehicle", cell row 6);
         ("data:Index_Motoritzacio", cell row 7) ] |}.

(** The qualifiers of the lookup handler with the position of their value. *)
Definition lookup_qualifiers : list (string * nat) :=
  [ ("district", 0%nat); ("neighborhood", 1%nat); ("district_n_reconciled", 2%nat);
    ("district_n", 3%nat); ("neighborhood_n_reconciled", 5%nat);
    ("neighborhood_n", 6%nat) ].

(** The put of one data row of the lookup handler. *)
Definition lookup_put (table_name source_name : string) (row : list string) : Loader.put_op :=
  {| Loader.put_table := table_name;
     Loader.put_key := Py.strip (table_name +:+ "_" +:+ cell row 4 +:+ "_" +:+ cell row 7);
     Loader.put_columns :=
       map (fun q => (source_name +:+ "_data:" +:+ fst q, cell row (snd q))) lookup_qualifiers |}.

(** The put of one record of the listings handler whose fields are there. *)
Definition idealista_put (E : Loader.env) (table_name valid_time : string)
           (d : list (string * Py.pyval)) : Loader.put_op :=
  {| Loader.put_table := table_name;
     Loader.put_key :=
       Py.str (Loader.uni E) (Loader.or_none (Py.dict_get "propertyCode" d)) +:+ "_"
         +:+ Py.str (Loader.uni E) (Loader.or_none (Py.dict_get "district" d)) +:+ "_"
         +:+ Py.str (Loader.uni E) (Loader.or_none (Py.dict_get "neighborhood" d)) +:+ "_"
         +:+ valid_time;
     Loader.put_columns :=
       [ ("data:property_info", Py.str (Loader.uni E) (Py.PDict (Loader.remaining d))) ] |}.

(** A metadata put: the four columns under the given key. *)
Definition metadata_put (table_name key num_rows num_cols column_names date : string)
  : Loader.put_op :=
  {| Loader.put_table := table_name;
     Loader.put_key := key;
     Loader.put_columns :=
       [ ("metadata:num_rows", num_rows);
         ("metadata:num_cols", num_cols);
         ("metadata:column_names", column_names);
         ("metadata:ingestion_date", date) ] |}.

(** No external call of the run raises. *)
Definition no_faults (faults : nat -> option exn) : Prop := forall k, faults k = None.


(** A record of a listings file that the handler can key: a dict with a
    [propertyCode]. *)
Definition has_property_code (d : list (string * Py.pyval)) : Prop :=
  Py.dict_get "propertyCode" d <> None.

(** The date of a file name and what [extract_timestamp_from_filename]
    makes of it. *)
Definition timestamp_of (E : Loader.env) (file_name : string) : option string :=
  match Py.search_date file_name with
  | Some date_str =>
      match Py.strptime date_str with
      | Some ymd => Some (Py.str_of_int (Loader.mktime E (Py.midnight ymd)))
      | None => None
      end
  | None => None
  end.

(** The staging folder name as the specification words it: drop the first
    underscore-delimited token of the name and join the rest with
    underscores. *)
Definition spec_folder_name (name : string) : string :=
  Py.join "_" (Py.drop_first (Py.split Py.underscore name)).

(** The state after [new] more puts and [k] more external calls. *)
Definition advance (new : list Loader.put_op) (k : nat) (s : Loader.state) : Loader.state :=
  {| Loader.connection := Loader.connection s; Loader.tables := Loader.tables s;
     Loader.puts := Loader.puts s ++ new; Loader.closed := Loader.closed s;
     Loader.log := Loader.log s; Loader.ticks := k + Loader.ticks s |}.

(** The year the locals of a CSV handler hold after the rows. *)
Definition last_year (rows : list (list string)) (valid_year : option string) : option string :=
  fold_left (fun _ row => Some (cell row 0)) rows valid_year.

(** ** Concrete runs *)

(** An environment in which nothing fails, the clock stands still and the
    local time zone is UTC. *)
Definition quiet_env (listing : string -> option (list string))
           (csv : string -> option (list (list string)))
           (json : string -> option Py.pyval) : Loader.env :=
  {| Loader.faults := fun _ => None;
     Loader.host := "localhost";
     Loader.arg_hbase_port := "9090";
     Loader.arg_temporal_landing_dir := "landing";
     Loader.arg_temporal_landing_csv := "csv";
     Loader.arg_temporal_landing_json := "json";
     Loader.hdfs_list := listing;
     Loader.hdfs_csv := csv;
     Loader.hdfs_json := json;
     Loader.clock := fun _ => "2023-04-01 12:00:00";
     Loader.mktime := fun t => t;
     Loader.uni := fun s => s;
     Loader.int_of := fun _ => Some 9090 |}.

(** One file or directory at [path]. *)
Definition serve {A} (path : string) (content : A) : string -> option A :=
  fun p => if String.eqb p path then Some content else None.

Definition nothing {A} : string -> option A := fun _ => None.

(** A loader that is connected and has written nothing. *)
Definition connected : Loader.state :=
  {| Loader.connection := Some {| Loader.conn_host := "localhost"; Loader.conn_port := 9090 |};
     Loader.tables := []; Loader.puts := []; Loader.closed := 0%nat;
     Loader.log := []; Loader.ticks := 0%nat |}.

Definition income_header : list string :=
  ["Any"; "Codi_Districte"; "Nom_Districte"; "Codi_Barri"; "Nom_Barri"; "Població"; "Índex"].

Definition income_row_2021 : list string :=
  ["2021"; "1"; "Ciutat Vella"; "1"; "Raval"; "50000"; "80"].

Definition listing_P1 : list (string * Py.pyval) :=
  [ ("propertyCode", Py.PStr "P1"); ("district", Py.PStr "D1");
    ("neighborhood", Py.PStr "N1"); ("price", Py.PInt 1000) ].

Definition veh_header : list string :=
  ["Any"; "Codi_Districte"; "Nom_Districte"; "Codi_Barri"; "Nom_Barri"; "Seccio_Censal";
   "Tipus_Vehicle"; "Index_Motoritzacio"].


Definition lookup_header : list string :=
  ["district"; "neighborhood"; "district_n_reconciled"; "district_n"; "district_id";
   "neighborhood_n_reconciled"; "neighborhood_n"; "neighborhood_id"].

Definition lookup_row_raval : list string :=
  ["Ciutat Vella"; "El Raval"; "Ciutat Vella"; "ciutat vella"; "Q941385"; "El Raval";
   "el raval"; "Q3596096"].

(** An income file whose only data row stops after three fields. *)
Definition income_short_row : list string := ["2021"; "1"; "Ciutat Vella"].

(** The text the specification gives for the stored remainder of
    [listing_P1]: an opening brace, [price] in double quotes, a colon, 1000
    and a closing brace. *)
Definition json_text_of_price : string :=
  "{" +:+ String Py.dquote "price" +:+ String Py.dquote ":1000}".



(** Every column of the put is [{source}_data:{qualifier}] for a qualifier
    of the lookup handler. *)
Definition lookup_data_columns (source_name : string) (p : Loader.put_op) : Prop :=
  forall col v, In (col, v) (Loader.put_columns p) ->
    exists q, In q (map fst lookup_qualifiers) /\
              col = (source_name +:+ "_data") +:+ ":" +:+ q.

(** The put is a metadata row under [key]. *)
Definition is_metadata_put (key : string) (p : Loader.put_op) : Prop :=
  Loader.put_key p = key /\
  map fst (Loader.put_columns p)
  = ["metadata:num_rows"; "metadata:num_cols"; "metadata:column_names";
     "metadata:ingestion_date"].

(** Whatever the run of [m] returns or raises, the puts it adds all
    satisfy [P]. *)
Definition adds {A} (P : Loader.put_op -> Prop) (m : M Loader.state A) : Prop :=
  forall s r s', m s = (r, s') ->
    exists new, Loader.puts s' = Loader.puts s ++ new /\ Forall P new.

(** What a step of the loader leaves alone when it only logs, creates
    tables and counts external calls. *)
Definition same_store (s s' : Loader.state) : Prop :=
  Loader.puts s' = Loader.puts s /\
  Loader.connection s' = Loader.connection s /\
  Loader.closed s' = Loader.closed s.

(** The calls [create_hdfs_dir] adds to the trace of [makedirs]. *)
Definition created (folder : string) (s : Collector.state) : list string :=
  if bool_decide (folder ∈ Collector.hdfs_paths s) then [] else [folder].

(** A collector whose client is set, on an empty HDFS. *)
Definition collecting : Collector.state :=
  {| Collector.client := Some {| Collector.client_url := "http://localhost:9870";
                                 Collector.client_user := "bdm" |};
     Collector.hdfs_paths := ∅;
     Collector.makedirs_calls := [];
     Collector.writes := [];
     Collector.closed := 0%nat;
     Collector.log := [];
     Collector.ticks := 0%nat |}.

(** The same collector once [landing/csv] exists. *)
Definition collecting_with_csv : Collector.state :=
  Collector.do_makedirs "landing/csv" collecting.

(** An environment of the collector in which nothing fails. *)
Definition quiet_collector (resources : string -> option (list Py.pyval))
           (content : string -> option string) : Collector.env :=
  {| Collector.faults := fun _ => None;
     Collector.arg_global_data_dir := "data";
     Collector.arg_temporal_landing_dir := "landing";
     Collector.arg_temporal_landing_csv := "csv";
     Collector.arg_temporal_landing_json := "json";
     Collector.open_data_api_key := "key";
     Collector.glob := fun _ => [];
     Collector.local_csv := nothing;
     Collector.local_json := nothing;
     Collector.catalog := resources;
     Collector.http_content := content |}.

(** A resource of the catalog answer as the harvest needs it: an object
    with a text [url], a text [name], and a body behind the url. *)
Definition catalog_resource (E : Collector.env) (r : Py.pyval)
           (info : string * string * string) : Prop :=
  let '(url, name, content) := info in
  exists d, r = Py.PDict d /\
            Py.dict_get "url" d = Some (Py.PStr url) /\
            Py.dict_get "name" d = Some (Py.PStr name) /\
            Collector.http_content E url = Some content.

Definition resource_name (info : string * string * string) : string := snd (fst info).

(** The file the harvest writes for a resource. *)
Definition staged_file (E : Collector.env) (info : string * string * string)
  : string * string :=
  (Py.unixify (Py.path_join (Collector.new_folder_of E (resource_name info))
                 [resource_name info]),
   snd info).

(** The staging folder as the specification derives it from the name. *)
Definition spec_new_folder (E : Collector.env) (name : string) : string :=
  Py.unixify (Py.path_join (Collector.temporal_landing_dir E)
                [Collector.temporal_landing_csv E; spec_folder_name name]).

Definition motor_2019 : Py.pyval :=
  Py.PDict [ ("url", Py.PStr "https://opendata/2019_index_motor.csv");
             ("name", Py.PStr "2019_index_motor.csv") ].

(** A method of the loader with its [try] body: it always returns; when
    the body returns the method has done what the body did, and when the
    body raises the method has closed the connection and logged the
    exception last. *)
Definition loader_guarded (op body : M Loader.state unit) : Prop :=
  forall s,
    exists s',
      op s = (Ok tt, s') /\
      (forall s1, body s = (Ok tt, s1) -> s' = s1) /\
      (forall e s1, body s = (Raise e, s1) ->
         Loader.connection s' = None /\
         Loader.puts s' = Loader.puts s1 /\
         exists l, Loader.log s' = Loader.log s1 ++ l ++ [Exception e]).



(** A loader that is not connected, and an environment in which the
    second external call of the run fails: the first is the construction
    of the HDFS client, the second the opening of the HBase connection. *)
Definition disconnected : Loader.state :=
  {| Loader.connection := None; Loader.tables := []; Loader.puts := [];
     Loader.closed := 0%nat; Loader.log := []; Loader.ticks := 0%nat |}.

Definition unreachable_hbase : Loader.env :=
  {| Loader.faults := fun k => match k with
                               | 1%nat => Some (ExternalError "TTransportException")
                               | _ => None
                               end;
     Loader.host := "localhost";
     Loader.arg_hbase_port := "9090";
     Loader.arg_temporal_landing_dir := "landing";
     Loader.arg_temporal_landing_csv := "csv";
     Loader.arg_temporal_landing_json := "json";
     Loader.hdfs_list := nothing;
     Loader.hdfs_csv := nothing;
     Loader.hdfs_json := nothing;
     Loader.clock := fun _ => "2023-04-01 12:00:00";
     Loader.mktime := fun t => t;
     Loader.uni := fun s => s;
     Loader.int_of := fun _ => Some 9090 |}.


(** ** main.py *)
Module Main.

(** The [try] body of the [persistence-loading] mode: the constructor, the
    four handlers, [close], and the closing log line. *)
Definition persistence_loading_body (E : Loader.env) : M Loader.state unit :=
  Loader.init E ;;;
  Loader.load_opendatabcn_income E ;;;
  Loader.load_veh_index_motoritzacio E ;;;
  Loader.load_lookup_tables E ;;;
  Loader.load_idealista E ;;;
  Loader.close ;;;
  Loader.logger_info "Persistence Loading completed successfully.".

(** The mode with its handler; the record stands for
    [logger.exception(f'Error occurred during persistence loading: {e}')]. *)
Definition persistence_loading (E : Loader.env) : M Loader.state unit :=
  try_except (persistence_loading_body E) Loader.logger_exception.



End Main.

(** The state of a disconnected loader after a load handler: two
    [AttributeError] records, one from [create_table] and one from the
    handler itself. *)
Definition refused (s : Loader.state) : Loader.state :=
  Loader.add_log (Exception AttributeError) (Loader.add_log (Exception AttributeError) s).

(** A row body of a yearly handler, whatever the external calls do: it
    either raises and puts nothing, or returns the year of the row after
    the one put [f row]. *)
Definition puts_row (body : list string -> option string -> M Loader.state (option string))
           (f : list string -> Loader.put_op) : Prop :=
  forall row vy s r s',
    body row vy s = (r, s') ->
    (exists e, r = Raise e /\ Loader.puts s' = Loader.puts s) \/
    (r = Ok (Some (cell row 0)) /\ Loader.puts s' = Loader.puts s ++ [f row]).

(** What a yearly handler has added to the store for a file whose rows
    are [rows], header first: when it raised, the puts of the first [k]
    data rows for some [k] and no metadata row; when it returned, the puts
    of all data rows and then the metadata row under the last year. *)
Definition prefix_or_whole (f : list string -> Loader.put_op) (t : string)
           (rows : list (list string)) (valid_year : option string)
           (r : result (option string)) (new : list Loader.put_op) : Prop :=
  match r with
  | Raise _ => exists k, new = map f (List.firstn k (List.tl rows))
  | Ok v =>
      exists year date,
        last_year (List.tl rows) valid_year = Some year /\
        v = Some year /\
        new = map f (List.tl rows)
                ++ [metadata_put t (t +:+ "_" +:+ year +:+ "_metadata")
                      (Py.str_of_int (Z.of_nat (length rows) - 1))
                      (Py.str_of_len (List.hd [] rows))
                      (Py.join "," (List.hd [] rows)) date]
  end.

(** The quiet environment with one failure: the external call number
    [k] of the run raises a transport error. *)
Definition failing_at (k : nat) (listing : string -> option (list string))
           (csv : string -> option (list (list string)))
           (json : string -> option Py.pyval) : Loader.env :=
  {| Loader.faults := fun i => if Nat.eqb i k then Some (ExternalError "TTransportException")
                               else None;
     Loader.host := "localhost";
     Loader.arg_hbase_port := "9090";
     Loader.arg_temporal_landing_dir := "landing";
     Loader.arg_temporal_landing_csv := "csv";
     Loader.arg_temporal_landing_json := "json";
     Loader.hdfs_list := listing;
     Loader.hdfs_csv := csv;
     Loader.hdfs_json := json;
     Loader.clock := fun _ => "2023-04-01 12:00:00";
     Loader.mktime := fun t => t;
     Loader.uni := fun s => s;
     Loader.int_of := fun _ => Some 9090 |}.

Definition income_row_2020 : list string :=
  ["2020"; "2"; "Eixample"; "5"; "Fort Pienc"; "32000"; "105"].

(** The column families [create_table] gives a new table. *)
Definition families_for (flag : bool) : list string :=
  if flag then ["idealista_data"; "income_data"; "metadata"] else ["data"; "metadata"].


(** The bytes [upload_csv_files_to_hdfs] makes of the rows of a file:
    the fields joined by commas, the rows by newlines. *)
Definition csv_bytes (rows : list (list string)) : string :=
  Py.join Collector.newline (map (Py.join ",") rows).

(** Where an upload writes a local file, and what. *)
Definition staged_upload (temp_dir filepath data : string) : string * string :=
  (Py.unixify (Py.path_join (Collector.staging_folder temp_dir filepath)
                 [Py.basename filepath]),
   data).

(** The staging directory of an upload. *)
Definition temp_dir_of (E : Collector.env) (hdfs_dir : string) : string :=
  Py.unixify (Py.path_join (Collector.temporal_landing_dir E) [hdfs_dir]).

(** A collector environment in which nothing fails, with local files. *)
Definition quiet_local (found : string -> list string)
           (csv : string -> option (list (list string)))
           (json : string -> option string) : Collector.env :=
  {| Collector.faults := fun _ => None;
     Collector.arg_global_data_dir := "data";
     Collector.arg_temporal_landing_dir := "landing";
     Collector.arg_temporal_landing_csv := "csv";
     Collector.arg_temporal_landing_json := "json";
     Collector.open_data_api_key := "key";
     Collector.glob := found;
     Collector.local_csv := csv;
     Collector.local_json := json;
     Collector.catalog := nothing;
     Collector.http_content := nothing |}.



(** * Proofs *)

(** ** The monad *)
Section MonadFacts.
Context {S : Type}.

Lemma bind_ok {A B} (m : M S A) (k : A -> M S B) s a s' :
  m s = (Ok a, s') -> bind m k s = k a s'.
Proof. intros H. unfold bind. now rewrite H. Qed.

Lemma bind_raise {A B} (m : M S A) (k : A -> M S B) s e s' :
  m s = (Raise e, s') -> bind m k s = (Raise e, s').
Proof. intros H. unfold bind. now rewrite H. Qed.

Lemma index_cell (row : list string) (i : nat) (s : S) :
  (i < length row)%nat -> index row i s = (Ok (cell row i), s).
Proof.
  intros H. unfold index, cell.
  destruct (nth_error row i) as [x|] eqn:Hx.
  - now rewrite (nth_error_nth _ _ _ Hx).
  - apply nth_error_None in Hx. lia.
Qed.

Lemma index_short {A} (l : list A) (i : nat) (s : S) :
  (length l <= i)%nat -> index l i s = (Raise IndexError, s).
Proof.
  intros H. unfold index. apply nth_error_None in H. now rewrite H.
Qed.
End MonadFacts.

(** ** The loader when no external call raises *)
Section LoaderFacts.
Import Loader.
Variable E : env.
Hypothesis Hnf : no_faults (faults E).

Lemma advance_advance l1 k1 l2 k2 s :
  advance l2 k2 (advance l1 k1 s) = advance (l1 ++ l2) (k1 + k2) s.
Proof.
  unfold advance; simpl. f_equal; [now rewrite app_assoc | lia].
Qed.

Lemma advance_ticks l k k' s : k = k' -> advance l k s = advance l k' s.
Proof. now intros ->. Qed.

Lemma advance_nil s : advance [] 0 s = s.
Proof. destruct s; unfold advance; simpl. now rewrite app_nil_r. Qed.

Lemma ext_ok s : ext E s = (Ok tt, tick s).
Proof. unfold ext. now rewrite Hnf. Qed.

Lemma tick_advance s : tick s = advance [] 1 s.
Proof. destruct s; unfold advance, tick; simpl. now rewrite app_nil_r. Qed.

Lemma table_put_ok t k c s :
  table_put E t k c s
  = (Ok tt, advance [{| put_table := t; put_key := k; put_columns := c |}] 1 s).
Proof.
  unfold table_put. rewrite (bind_ok _ _ _ _ _ (ext_ok s)). reflexivity.
Qed.

Lemma income_row_ok t row vy s :
  (7 <= length row)%nat ->
  income_row E t row vy s = (Ok (Some (cell row 0)), advance [income_put t row] 1 s).
Proof.
  intros H. unfold income_row.
  repeat (erewrite bind_ok; [| apply index_cell; lia]).
  erewrite bind_ok; [| apply table_put_ok]. reflexivity.
Qed.



(** The row loop once the header is read, for a row body that puts
    [f row] and returns [g row vy] on the rows that satisfy [P]. *)
Lemma csv_rows_ok (body : list string -> option string -> M state (option string))
      (P : list string -> Prop) (f : list string -> put_op)
      (g : list string -> option string -> option string) :
  (forall row vy s, P row -> body row vy s = (Ok (g row vy), advance [f row] 1 s)) ->
  forall rows n cols vy s,
    0 < n -> Forall P rows ->
    csv_rows E body rows n cols vy s
    = (Ok (n + Z.of_nat (length rows), cols, fold_left (fun v r => g r v) rows vy),
       advance (map f rows) (2 * length rows) s).
Proof.
  intros Hbody rows. induction rows as [|row rows IH]; intros n cols vy s Hn HP.
  - simpl. unfold ret. rewrite advance_nil. now replace (n + Z.of_nat 0) with n by lia.
  - inversion HP as [|? ? Hrow Hrows]; subst.
    cbn [csv_rows]. erewrite bind_ok; [| apply ext_ok].
    destruct (Z.eqb_spec n 0) as [->|_]; [lia|].
    erewrite bind_ok; [| apply Hbody, Hrow].
    rewrite IH; [| lia | assumption].
    rewrite tick_advance, !advance_advance. cbn [length map fold_left app].
    replace (n + 1 + Z.of_nat (length rows)) with (n + Z.of_nat (S (length rows))) by lia.
    apply (f_equal2 pair); [reflexivity | apply advance_ticks; lia].
Qed.

Lemma csv_rows_header body header rows vy s :
  csv_rows E body (header :: rows) 0 [] vy s
  = csv_rows E body rows 1 header vy (tick s).
Proof. cbn [csv_rows]. erewrite bind_ok; [| apply ext_ok]. reflexivity. Qed.

Lemma last_year_some rows vy : rows <> [] -> exists y, last_year rows vy = Some y.
Proof.
  unfold last_year. revert vy. induction rows as [|r rows IH]; intros vy H; [congruence|].
  destruct rows as [|r' rows]; [now exists (cell r 0) | apply IH; congruence].
Qed.

Lemma hdfs_client_read_csv_ok path rows s :
  hdfs_csv E path = Some rows ->
  hdfs_client_read_csv E path s = (Ok rows, tick s).
Proof.
  intros H. unfold hdfs_client_read_csv.
  erewrite bind_ok; [| apply ext_ok]. now rewrite H.
Qed.

(** A file of the income or of the vehicle handler whose rows are long
    enough and whose year is known when the metadata row is written. *)
Lemma yearly_file_ok body P f t dir filename header rows vy year s :
  (forall t row vy s, P row -> body t row vy s = (Ok (Some (cell row 0)), advance [f t row] 1 s)) ->
  hdfs_csv E (Py.unixify (Py.path_join dir [filename])) = Some (header :: rows) ->
  Forall P rows ->
  last_year rows vy = Some year ->
  exists date s',
    yearly_file E body t dir filename vy s = (Ok (Some year), s') /\
    puts s' = puts s ++ map (f t) rows
                ++ [metadata_put t (t +:+ "_" +:+ year +:+ "_metadata")
                      (Py.str_of_int (Z.of_nat (length rows)))
                      (Py.str_of_len header) (Py.join "," header) date] /\
    connection s' = connection s /\ closed s' = closed s /\ tables s' = tables s.
Proof.
  intros Hbody Hfile HP Hyear. unfold yearly_file.
  erewrite bind_ok; [| apply hdfs_client_read_csv_ok, Hfile].
  rewrite (bind_ok _ _ _ _ _
    (eq_trans (csv_rows_header _ _ _ _ _)
       (csv_rows_ok (body t) P (f t) (fun r _ => Some (cell r 0))
          (fun row vy s H => Hbody t row vy s H) rows 1 header vy _ ltac:(lia) HP))).
  fold (last_year rows vy). rewrite Hyear.
  unfold now. erewrite bind_ok; [| reflexivity].
  erewrite bind_ok; [| reflexivity].
  erewrite bind_ok; [| apply table_put_ok].
  eexists _, _. split; [reflexivity|].
  cbn. rewrite <- !app_assoc. repeat split.
  unfold metadata_put, metadata_dict.
  now replace (1 + Z.of_nat (length rows) - 1) with (Z.of_nat (length rows)) by lia.
Qed.


Lemma extract_timestamp_ok filename ts s :
  timestamp_of E filename = Some ts ->
  extract_timestamp_from_filename E filename s = (Ok ts, s).
Proof.
  unfold timestamp_of, extract_timestamp_from_filename. intros H.
  destruct (Py.search_date filename) as [ds|]; [|discriminate].
  destruct (Py.strptime ds) as [ymd|] eqn:Hymd; [|discriminate].
  injection H as <-. cbn. unfold bind. now rewrite Hymd.
Qed.

Lemma idealista_record_ok t filename ts d s :
  timestamp_of E filename = Some ts ->
  has_property_code d ->
  idealista_record E t filename (Py.PDict d) s
  = (Ok ts, advance [idealista_put E t ts d] 1 s).
Proof.
  intros Hts Hd. unfold idealista_record, has_property_code in *.
  destruct (Py.dict_get "propertyCode" d) as [code|] eqn:Hcode; [|congruence].
  erewrite bind_ok; [| reflexivity].
  erewrite bind_ok; [| apply extract_timestamp_ok, Hts].
  erewrite bind_ok; [| apply table_put_ok].
  unfold idealista_put. now rewrite Hcode.
Qed.

Lemma idealista_records_ok t filename ts ds vt s :
  timestamp_of E filename = Some ts ->
  Forall has_property_code ds ->
  idealista_records E t filename (map Py.PDict ds) vt s
  = (Ok (match ds with [] => vt | _ => Some ts end),
     advance (map (idealista_put E t ts) ds) (length ds) s).
Proof.
  intros Hts. revert vt s. induction ds as [|d ds IH]; intros vt s HP.
  - simpl. unfold ret. now rewrite advance_nil.
  - inversion HP as [|? ? Hd Hds]; subst.
    cbn [map idealista_records].
    erewrite bind_ok; [| apply idealista_record_ok; eassumption].
    rewrite IH by assumption. rewrite advance_advance.
    apply (f_equal2 pair); [now destruct ds | reflexivity].
Qed.

Lemma hdfs_client_read_json_ok path data s :
  hdfs_json E path = Some data ->
  hdfs_client_read_json E path s = (Ok data, tick (tick s)).
Proof.
  intros H. unfold hdfs_client_read_json.
  erewrite bind_ok; [| apply ext_ok]. erewrite bind_ok; [| apply ext_ok].
  now rewrite H.
Qed.

Lemma first_record_keys_ok d ds s :
  first_record_keys (map Py.PDict (d :: ds)) s = (Ok (map fst d), s).
Proof. reflexivity. Qed.

Lemma idealista_file_ok t dir filename ts d ds vt s :
  hdfs_json E (Py.unixify (Py.path_join dir [filename]))
    = Some (Py.PList (map Py.PDict (d :: ds))) ->
  timestamp_of E filename = Some ts ->
  Forall has_property_code (d :: ds) ->
  exists date s',
    idealista_file E t dir filename vt s = (Ok (Some ts), s') /\
    puts s' = puts s ++ map (idealista_put E t ts) (d :: ds)
                ++ [metadata_put t (t +:+ "_" +:+ ts +:+ "_metadata")
                      (Py.str_of_int (Z.of_nat (length (d :: ds))))
                      (Py.str_of_len (map fst d)) (Py.join "," (map fst d)) date] /\
    connection s' = connection s /\ closed s' = closed s /\ tables s' = tables s.
Proof.
  intros Hfile Hts HP. unfold idealista_file.
  erewrite bind_ok; [| apply hdfs_client_read_json_ok, Hfile].
  cbv beta iota.
  erewrite bind_ok; [| apply idealista_records_ok; eassumption].
  erewrite bind_ok; [| apply first_record_keys_ok].
  unfold now. erewrite bind_ok; [| reflexivity].
  erewrite bind_ok; [| reflexivity].
  erewrite bind_ok; [| apply table_put_ok].
  eexists _, _. split; [reflexivity|].
  cbn. rewrite <- !app_assoc. repeat split.
  unfold metadata_put, Py.str_of_len. cbn [length map]. now rewrite length_map.
Qed.
End LoaderFacts.

(** ** C1: rows and metadata per file *)





(** ** The handlers from table creation to the files *)
Section HandlerFacts.
Import Loader.
Variable E : env.
Hypothesis Hnf : no_faults (faults E).

Lemma create_table_ok name flag c s :
  connection s = Some c ->
  exists s', create_table E name flag s = (Ok tt, s') /\ same_store s s'.
Proof.
  intros Hc. unfold create_table, try_except, create_table_body.
  unfold the_connection.
  erewrite bind_ok; [| erewrite bind_ok; [| reflexivity]; rewrite Hc; reflexivity].
  erewrite bind_ok; [| apply ext_ok, Hnf].
  erewrite bind_ok; [| reflexivity].
  cbn [tables tick].
  destruct (has_table name (tables s)).
  - eexists; split; [reflexivity|]. now repeat split.
  - destruct flag; cbn [negb];
      (erewrite bind_ok; [| apply ext_ok, Hnf]);
      eexists; (split; [reflexivity|]); now repeat split.
Qed.

Lemma get_table_ok name c s :
  connection s = Some c -> get_table name s = (Ok name, s).
Proof.
  intros Hc. unfold get_table, the_connection.
  erewrite bind_ok; [reflexivity|].
  erewrite bind_ok; [| reflexivity]. now rewrite Hc.
Qed.

Lemma hdfs_client_list_ok dir names s :
  hdfs_list E dir = Some names -> hdfs_client_list E dir s = (Ok names, tick s).
Proof.
  intros H. unfold hdfs_client_list.
  erewrite bind_ok; [| apply ext_ok, Hnf]. now rewrite H.
Qed.

(** A handler up to its loop over the files. *)
Lemma handler_prefix_ok name flag dir names c s (loop : string -> string -> list string -> M state unit) :
  connection s = Some c ->
  hdfs_list E dir = Some names ->
  exists s0, same_store s s0 /\
    (create_table E name flag ;;;
     table <- get_table name ;;
     filenames <- hdfs_client_list E dir ;;
     loop table dir filenames) s = loop name dir names s0.
Proof.
  intros Hc Hdir.
  destruct (create_table_ok name flag c s Hc) as (s1 & Hrun & Hp & Hc1 & Hcl).
  exists (tick s1). split; [now repeat split|].
  erewrite bind_ok; [| exact Hrun].
  erewrite bind_ok; [| apply get_table_ok with (c := c); congruence].
  erewrite bind_ok; [| apply hdfs_client_list_ok, Hdir].
  reflexivity.
Qed.
End HandlerFacts.

(** C2.  When no external call raises and the loader is connected, the
    income handler run on a staging directory that holds the single file
    [income_2021.csv] with the header
    [Any,Codi_Districte,Nom_Districte,Codi_Barri,Nom_Barri,Població,Índex]
    and the data row [2021,1,Ciutat Vella,1,Raval,50000,80] returns after
    exactly two puts: the data row under [opendatabcn-income_1_1_2021]
    with its four [data:] columns, then the metadata row under
    [opendatabcn-income_2021_metadata] with [num_rows] 1. *)
Theorem C2_income_scenario (E : Loader.env) (s : Loader.state) (c : Loader.hbase_connection) :
  no_faults (Loader.faults E) ->
  Loader.connection s = Some c ->
  Loader.hdfs_list E (Loader.csv_dir_of E "opendatabcn-income") = Some ["income_2021.csv"] ->
  Loader.hdfs_csv E
    (Py.unixify (Py.path_join (Loader.csv_dir_of E "opendatabcn-income") ["income_2021.csv"]))
    = Some [income_header; income_row_2021] ->
  exists date s',
    Loader.load_opendatabcn_income E s = (Ok tt, s') /\
    Loader.puts s' =
      Loader.puts s ++
        [ {| Loader.put_table := "opendatabcn-income";
             Loader.put_key := "opendatabcn-income_1_1_2021";
             Loader.put_columns :=
               [ ("data:District_Name", "Ciutat Vella");
                 ("data:Neighborhood_Name", "Raval");
                 ("data:Population", "50000");
                 ("data:Index RFD Barcelona = 100", "80") ] |};
          {| Loader.put_table := "opendatabcn-income";
             Loader.put_key := "opendatabcn-income_2021_metadata";
             Loader.put_columns :=
               [ ("metadata:num_rows", "1");
                 ("metadata:num_cols", "7");
                 ("metadata:column_names",
                  "Any,Codi_Districte,Nom_Districte,Codi_Barri,Nom_Barri,Població,Índex");
                 ("metadata:ingestion_date", date) ] |} ] /\
    Loader.connection s' = Some c.
Proof.
  intros Hnf Hc Hdir Hfile.
  unfold Loader.load_opendatabcn_income, try_except, Loader.load_opendatabcn_income_body.
  destruct (handler_prefix_ok E Hnf "opendatabcn-income" false _ _ c s
              (fun table dir names => Loader.yearly_files E (Loader.income_row E) table dir names None)
              Hc Hdir) as (s0 & (Hp0 & Hc0 & _) & ->).
  cbn [Loader.yearly_files]. change (Py.endswith "income_2021.csv" ".csv") with true.
  cbv iota.
  destruct (yearly_file_ok E Hnf (Loader.income_row E) _ income_put "opendatabcn-income"
              _ "income_2021.csv" income_header [income_row_2021] None "2021" s0
              (income_row_ok E Hnf) Hfile ltac:(repeat constructor) eq_refl)
    as (date & s' & Hrun & Hputs & Hc' & _).
  erewrite bind_ok; [| exact Hrun]. unfold ret.
  exists date, s'. split; [reflexivity|]. split; [| congruence].
  rewrite Hputs, Hp0. reflexivity.
Qed.

Lemma C2_income_scenario_witness :
  let E := quiet_env (serve "landing/csv/opendatabcn-income" ["income_2021.csv"])
             (serve "landing/csv/opendatabcn-income/income_2021.csv"
                [income_header; income_row_2021]) nothing in
  exists date s',
    Loader.load_opendatabcn_income E connected = (Ok tt, s') /\
    Loader.puts s' =
      Loader.puts connected ++
        [ {| Loader.put_table := "opendatabcn-income";
             Loader.put_key := "opendatabcn-income_1_1_2021";
             Loader.put_columns :=
               [ ("data:District_Name", "Ciutat Vella");
                 ("data:Neighborhood_Name", "Raval");
                 ("data:Population", "50000");
                 ("data:Index RFD Barcelona = 100", "80") ] |};
          {| Loader.put_table := "opendatabcn-income";
             Loader.put_key := "opendatabcn-income_2021_metadata";
             Loader.put_columns :=
               [ ("metadata:num_rows", "1");
                 ("metadata:num_cols", "7");
                 ("metadata:column_names",
                  "Any,Codi_Districte,Nom_Districte,Codi_Barri,Nom_Barri,Població,Índex");
                 ("metadata:ingestion_date", date) ] |} ] /\
    Loader.connection s' = Loader.connection connected.
Proof.
  intros E.
  apply (C2_income_scenario E connected _ (fun _ => eq_refl) eq_refl eq_refl eq_refl).
Defined.

(** C3 (as amended).  When no external call raises and the loader is
    connected, the listings handler run on a staging directory that holds
    the single file [idealista_2022_05_10.json] with the single object
    [listing_P1] returns after exactly two puts: the object under the key
    [P1_D1_N1_] followed by the timestamp of 2022-05-10 (midnight in the
    local time zone), with the single column [data:property_info] holding
    the text Python prints for the remaining mapping, [{'price': 1000}];
    then the metadata row. *)
Theorem C3_listing_scenario (E : Loader.env) (s : Loader.state) (c : Loader.hbase_connection) :
  no_faults (Loader.faults E) ->
  Loader.connection s = Some c ->
  Loader.hdfs_list E (Loader.json_dir_of E "idealista") = Some ["idealista_2022_05_10.json"] ->
  Loader.hdfs_json E
    (Py.unixify (Py.path_join (Loader.json_dir_of E "idealista") ["idealista_2022_05_10.json"]))
    = Some (Py.PList [Py.PDict listing_P1]) ->
  exists date s',
    Loader.load_idealista E s = (Ok tt, s') /\
    Loader.puts s' =
      Loader.puts s ++
        [ {| Loader.put_table := "idealista";
             Loader.put_key :=
               "P1_D1_N1_" +:+ Py.str_of_int (Loader.mktime E (Py.midnight (2022, 5, 10)));
             Loader.put_columns := [ ("data:property_info", "{'price': 1000}") ] |};
          {| Loader.put_table := "idealista";
             Loader.put_key :=
               "idealista_" +:+ Py.str_of_int (Loader.mktime E (Py.midnight (2022, 5, 10)))
                 +:+ "_metadata";
             Loader.put_columns :=
               [ ("metadata:num_rows", "1");
                 ("metadata:num_cols", "4");
                 ("metadata:column_names", "propertyCode,district,neighborhood,price");
                 ("metadata:ingestion_date", date) ] |} ] /\
    Loader.connection s' = Some c.
Proof.
  intros Hnf Hc Hdir Hfile.
  unfold Loader.load_idealista, try_except, Loader.load_idealista_body.
  destruct (handler_prefix_ok E Hnf "idealista" false _ _ c s
              (fun table dir names => Loader.idealista_files E table dir names None)
              Hc Hdir) as (s0 & (Hp0 & Hc0 & _) & ->).
  cbn [Loader.idealista_files]. change (Py.endswith "idealista_2022_05_10.json" ".json") with true.
  cbv iota.
  destruct (idealista_file_ok E Hnf "idealista" _ "idealista_2022_05_10.json"
              (Py.str_of_int (Loader.mktime E (Py.midnight (2022, 5, 10))))
              listing_P1 [] None s0 Hfile eq_refl
              ltac:(repeat constructor; discriminate))
    as (date & s' & Hrun & Hputs & Hc' & _).
  erewrite bind_ok; [| exact Hrun]. unfold ret.
  exists date, s'. split; [reflexivity|]. split; [| congruence].
  rewrite Hputs, Hp0. reflexivity.
Qed.

Lemma C3_listing_scenario_witness :
  let E := quiet_env (serve "landing/json/idealista" ["idealista_2022_05_10.json"]) nothing
             (serve "landing/json/idealista/idealista_2022_05_10.json"
                (Py.PList [Py.PDict listing_P1])) in
  exists date s',
    Loader.load_idealista E connected = (Ok tt, s') /\
    Loader.puts s' =
      Loader.puts connected ++
        [ {| Loader.put_table := "idealista";
             Loader.put_key :=
               "P1_D1_N1_" +:+ Py.str_of_int (Loader.mktime E (Py.midnight (2022, 5, 10)));
             Loader.put_columns := [ ("data:property_info", "{'price': 1000}") ] |};
          {| Loader.put_table := "idealista";
             Loader.put_key :=
               "idealista_" +:+ Py.str_of_int (Loader.mktime E (Py.midnight (2022, 5, 10)))
                 +:+ "_metadata";
             Loader.put_columns :=
               [ ("metadata:num_rows", "1");
                 ("metadata:num_cols", "4");
                 ("metadata:column_names", "propertyCode,district,neighborhood,price");
                 ("metadata:ingestion_date", date) ] |} ] /\
    Loader.connection s' = Loader.connection connected.
Proof.
  intros E.
  apply (C3_listing_scenario E connected _ (fun _ => eq_refl) eq_refl eq_refl eq_refl).
Defined.

(** C3 as the specification states it fails on its own scenario: with
    UTC as the local time zone the handler puts the object under
    [P1_D1_N1_1652140800], and the value of [data:property_info] is
    [{'price': 1000}]; no put of the run holds the text
    [json_text_of_price]. *)
Lemma C3_counterexample :
  let E := quiet_env (serve "landing/json/idealista" ["idealista_2022_05_10.json"]) nothing
             (serve "landing/json/idealista/idealista_2022_05_10.json"
                (Py.PList [Py.PDict listing_P1])) in
  let s' := snd (Loader.load_idealista E connected) in
  nth_error (Loader.puts s') 0
    = Some {| Loader.put_table := "idealista";
              Loader.put_key := "P1_D1_N1_1652140800";
              Loader.put_columns := [ ("data:property_info", "{'price': 1000}") ] |} /\
  ~ exists p,
      In p (Loader.puts s') /\
      Loader.put_columns p = [ ("data:property_info", json_text_of_price) ].
Proof.
  split; [reflexivity|].
  intros (p & Hin & Hcols). vm_compute in Hin.
  destruct Hin as [<- | [<- | []]]; vm_compute in Hcols; discriminate.
Qed.

(** ** C5: a file with a header and no data row *)

Lemma yearly_file_header_only (E : Loader.env) body t dir filename header s :
  no_faults (Loader.faults E) ->
  Loader.hdfs_csv E (Py.unixify (Py.path_join dir [filename])) = Some [header] ->
  Loader.yearly_file E body t dir filename None s
  = (Raise (UnboundLocalError "valid_year"), advance [] 2 s).
Proof.
  intros Hnf Hfile. unfold Loader.yearly_file.
  erewrite bind_ok; [| apply hdfs_client_read_csv_ok; eassumption].
  erewrite bind_ok; [| rewrite csv_rows_header by assumption; reflexivity].
  unfold Loader.now. erewrite bind_ok; [| reflexivity].
  erewrite bind_raise; [| reflexivity].
  rewrite !tick_advance, advance_advance. reflexivity.
Qed.

Lemma on_error_connected e c s :
  Loader.connection s = Some c ->
  exists s', Loader.on_error e s = (Ok tt, s') /\
             Loader.puts s' = Loader.puts s /\
             Loader.connection s' = None /\
             Loader.closed s' = S (Loader.closed s) /\
             Loader.log s' = Loader.log s
                               ++ [Info "Closing HBase connection"; Info "HBase connection closed";
                                   Exception e].
Proof.
  intros Hc. unfold Loader.on_error, Loader.close.
  eexists. split.
  - erewrite bind_ok; [reflexivity|].
    erewrite bind_ok; [| reflexivity]. cbn beta. rewrite Hc. reflexivity.
  - cbn. rewrite <- !app_assoc. now repeat split.
Qed.

(** A handler of the yearly shape, connected, on a staging directory
    whose single [.csv] file holds a header and no data row. *)
Lemma yearly_handler_header_only (E : Loader.env) body name s c filename header :
  no_faults (Loader.faults E) ->
  Loader.connection s = Some c ->
  Py.endswith filename ".csv" = true ->
  Loader.hdfs_list E (Loader.csv_dir_of E name) = Some [filename] ->
  Loader.hdfs_csv E (Py.unixify (Py.path_join (Loader.csv_dir_of E name) [filename]))
    = Some [header] ->
  exists s',
    try_except
      (Loader.create_table E name false ;;;
       table <- Loader.get_table name ;;
       filenames <- Loader.hdfs_client_list E (Loader.csv_dir_of E name) ;;
       Loader.yearly_files E body table (Loader.csv_dir_of E name) filenames None)
      Loader.on_error s = (Ok tt, s') /\
    Loader.puts s' = Loader.puts s /\
    Loader.connection s' = None /\
    exists l, Loader.log s' = l ++ [Exception (UnboundLocalError "valid_year")].
Proof.
  intros Hnf Hc Hcsv Hdir Hfile. unfold try_except.
  destruct (handler_prefix_ok E Hnf name false _ _ c s
              (fun table dir names => Loader.yearly_files E body table dir names None)
              Hc Hdir) as (s0 & (Hp0 & Hc0 & _) & ->).
  cbn [Loader.yearly_files]. rewrite Hcsv.
  erewrite bind_raise; [| eapply yearly_file_header_only; eassumption].
  destruct (on_error_connected (UnboundLocalError "valid_year") c (advance [] 2 s0))
    as (s' & -> & Hp & Hc' & _ & Hlog); [cbn; congruence|].
  exists s'. split; [reflexivity|]. split; [| split; [assumption|]].
  - rewrite Hp. cbn. now rewrite app_nil_r.
  - eexists. rewrite Hlog.
    change [Info "Closing HBase connection"; Info "HBase connection closed";
            Exception (UnboundLocalError "valid_year")]
      with ([Info "Closing HBase connection"; Info "HBase connection closed"]
              ++ [Exception (UnboundLocalError "valid_year")]).
    rewrite app_assoc. reflexivity.
Qed.

(** C5 at the income and at the vehicle handler.  When no external call
    raises and the loader is connected, either handler run on a staging
    directory whose single [.csv] file holds a header and no data row
    reads [valid_year] before any row has assigned it: the handler takes
    its error branch with [UnboundLocalError], closes the connection and
    has put nothing, so no metadata row with row count 0 is written. *)
Theorem C5_header_only_without_metadata (E : Loader.env) (s : Loader.state)
        (c : Loader.hbase_connection) (filename : string) (header : list string) :
  no_faults (Loader.faults E) ->
  Loader.connection s = Some c ->
  Py.endswith filename ".csv" = true ->
  (Loader.hdfs_list E (Loader.csv_dir_of E "opendatabcn-income") = Some [filename] ->
   Loader.hdfs_csv E
     (Py.unixify (Py.path_join (Loader.csv_dir_of E "opendatabcn-income") [filename]))
     = Some [header] ->
   exists s',
     Loader.load_opendatabcn_income E s = (Ok tt, s') /\
     Loader.puts s' = Loader.puts s /\
     Loader.connection s' = None /\
     exists l, Loader.log s' = l ++ [Exception (UnboundLocalError "valid_year")]) /\
  (Loader.hdfs_list E (Loader.csv_dir_of E "veh_index_motoritzacio") = Some [filename] ->
   Loader.hdfs_csv E
     (Py.unixify (Py.path_join (Loader.csv_dir_of E "veh_index_motoritzacio") [filename]))
     = Some [header] ->
   exists s',
     Loader.load_veh_index_motoritzacio E s = (Ok tt, s') /\
     Loader.puts s' = Loader.puts s /\
     Loader.connection s' = None /\
     exists l, Loader.log s' = l ++ [Exception (UnboundLocalError "valid_year")]).
Proof.
  intros Hnf Hc Hcsv. split; intros Hdir Hfile.
  - exact (yearly_handler_header_only E (Loader.income_row E) "opendatabcn-income"
             s c filename header Hnf Hc Hcsv Hdir Hfile).
  - exact (yearly_handler_header_only E (Loader.veh_row E) "veh_index_motoritzacio"
             s c filename header Hnf Hc Hcsv Hdir Hfile).
Qed.

Lemma C5_header_only_without_metadata_witness :
  let E := quiet_env
             (fun dir => Some [if String.eqb dir "landing/csv/opendatabcn-income"
                               then "income_2021.csv" else "veh_2019.csv"])
             (fun path => Some [if String.eqb path "landing/csv/opendatabcn-income/income_2021.csv"
                                then income_header else veh_header])
             nothing in
  (exists s',
     Loader.load_opendatabcn_income E connected = (Ok tt, s') /\
     Loader.puts s' = Loader.puts connected /\
     Loader.connection s' = None /\
     exists l, Loader.log s' = l ++ [Exception (UnboundLocalError "valid_year")]) /\
  (exists s',
     Loader.load_veh_index_motoritzacio E connected = (Ok tt, s') /\
     Loader.puts s' = Loader.puts connected /\
     Loader.connection s' = None /\
     exists l, Loader.log s' = l ++ [Exception (UnboundLocalError "valid_year")]).
Proof.
  intros E. split.
  - apply (proj1 (C5_header_only_without_metadata E connected _ "income_2021.csv" income_header
                    (fun _ => eq_refl) eq_refl eq_refl)); reflexivity.
  - apply (proj2 (C5_header_only_without_metadata E connected _ "veh_2019.csv" veh_header
                    (fun _ => eq_refl) eq_refl eq_refl)); reflexivity.
Defined.

(** ** C9: a listings file that is an empty list *)

Lemma idealista_file_empty (E : Loader.env) t dir filename vt s :
  no_faults (Loader.faults E) ->
  Loader.hdfs_json E (Py.unixify (Py.path_join dir [filename])) = Some (Py.PList []) ->
  Loader.idealista_file E t dir filename vt s = (Raise IndexError, advance [] 2 s).
Proof.
  intros Hnf Hfile. unfold Loader.idealista_file.
  erewrite bind_ok; [| apply hdfs_client_read_json_ok; eassumption].
  cbv beta iota.
  erewrite bind_ok; [| reflexivity].
  erewrite bind_raise; [| reflexivity].
  rewrite !tick_advance, advance_advance. reflexivity.
Qed.

(** C9.  When no external call raises and a staged listings file parses
    to the empty list, processing the file raises [IndexError] at
    [data[0]] and puts nothing, whatever [valid_time] holds; and the
    listings handler, connected and meeting such a file first, returns
    with the store as it was (no data row, no metadata row), the
    connection closed and [IndexError] logged. *)
Theorem C9_empty_listing_file (E : Loader.env) (s : Loader.state) (c : Loader.hbase_connection)
        (filename : string) (rest : list string) :
  no_faults (Loader.faults E) ->
  Loader.connection s = Some c ->
  Py.endswith filename ".json" = true ->
  Loader.hdfs_list E (Loader.json_dir_of E "idealista") = Some (filename :: rest) ->
  Loader.hdfs_json E
    (Py.unixify (Py.path_join (Loader.json_dir_of E "idealista") [filename]))
    = Some (Py.PList []) ->
  (forall vt s0,
      exists s1,
        Loader.idealista_file E "idealista" (Loader.json_dir_of E "idealista") filename vt s0
          = (Raise IndexError, s1) /\
        Loader.puts s1 = Loader.puts s0) /\
  exists s',
    Loader.load_idealista E s = (Ok tt, s') /\
    Loader.puts s' = Loader.puts s /\
    Loader.connection s' = None /\
    Loader.closed s' = S (Loader.closed s) /\
    exists l, Loader.log s' = l ++ [Exception IndexError].
Proof.
  intros Hnf Hc Hjson Hdir Hfile. split.
  - intros vt s0. eexists. split; [apply idealista_file_empty; assumption|].
    cbn. now rewrite app_nil_r.
  - unfold Loader.load_idealista, try_except, Loader.load_idealista_body.
    destruct (handler_prefix_ok E Hnf "idealista" false _ _ c s
                (fun table dir names => Loader.idealista_files E table dir names None)
                Hc Hdir) as (s0 & (Hp0 & Hc0 & Hcl0) & ->).
    cbn [Loader.idealista_files]. rewrite Hjson.
    erewrite bind_raise; [| eapply idealista_file_empty; eassumption].
    destruct (on_error_connected IndexError c (advance [] 2 s0))
      as (s' & -> & Hp & Hc' & Hcl & Hlog); [cbn; congruence|].
    exists s'. split; [reflexivity|]. repeat split.
    + rewrite Hp. cbn. now rewrite app_nil_r.
    + assumption.
    + rewrite Hcl. cbn. now rewrite Hcl0.
    + eexists. rewrite Hlog.
      change [Info "Closing HBase connection"; Info "HBase connection closed"; Exception IndexError]
        with ([Info "Closing HBase connection"; Info "HBase connection closed"]
                ++ [Exception IndexError]).
      rewrite app_assoc. reflexivity.
Qed.

Lemma C9_empty_listing_file_witness :
  let E := quiet_env (serve "landing/json/idealista" ["idealista_2022_05_10.json"]) nothing
             (serve "landing/json/idealista/idealista_2022_05_10.json" (Py.PList [])) in
  (forall vt s0,
      exists s1,
        Loader.idealista_file E "idealista" (Loader.json_dir_of E "idealista")
          "idealista_2022_05_10.json" vt s0 = (Raise IndexError, s1) /\
        Loader.puts s1 = Loader.puts s0) /\
  exists s',
    Loader.load_idealista E connected = (Ok tt, s') /\
    Loader.puts s' = Loader.puts connected /\
    Loader.connection s' = None /\
    Loader.closed s' = S (Loader.closed connected) /\
    exists l, Loader.log s' = l ++ [Exception IndexError].
Proof.
  intros E.
  apply (C9_empty_listing_file E connected _ "idealista_2022_05_10.json" []
           (fun _ => eq_refl) eq_refl eq_refl eq_refl eq_refl).
Defined.

(** ** C10: listings records without district or neighborhood *)



(** ** Tokens and column names *)

Lemma append_cons a s t : String a s +:+ t = String a (s +:+ t).
Proof. reflexivity. Qed.

Lemma append_assoc a b c : (a +:+ b) +:+ c = a +:+ (b +:+ c).
Proof.
  induction a as [|x a IH]; [reflexivity|].
  rewrite !append_cons. now rewrite IH.
Qed.

Lemma split_not_nil c s : Py.split c s <> [].
Proof.
  destruct s as [|a s]; cbn; [discriminate|].
  destruct (Py.ch_eq a c); [discriminate|].
  destruct (Py.split c s); discriminate.
Qed.

Lemma first_token_cons c a s :
  Py.first_token c (String a s)
  = if Py.ch_eq a c then "" else String a (Py.first_token c s).
Proof.
  unfold Py.first_token. cbn [Py.split].
  destruct (Py.ch_eq a c); [reflexivity|].
  destruct (Py.split c s) eqn:Hs; [now apply split_not_nil in Hs | reflexivity].
Qed.

(** The first token holds no separator. *)
Lemma first_token_clean c s : Py.contains c (Py.first_token c s) = false.
Proof.
  induction s as [|a s IH]; [reflexivity|].
  rewrite first_token_cons.
  destruct (Py.ch_eq a c) eqn:Ha; [reflexivity|].
  cbn [Py.contains]. now rewrite Ha, IH.
Qed.

(** A text without separator is the first token of whatever follows it
    after a separator. *)
Lemma first_token_app c a rest :
  Py.contains c a = false -> Py.first_token c (a +:+ String c rest) = a.
Proof.
  induction a as [|x a IH]; intros H.
  - change ("" +:+ String c rest) with (String c rest).
    rewrite first_token_cons. unfold Py.ch_eq. now rewrite Ascii.eqb_refl.
  - cbn [Py.contains] in H. apply orb_false_iff in H as [Hx Ha].
    rewrite append_cons, first_token_cons, Hx. now rewrite IH.
Qed.

Lemma token_prefix_inj c a b x y :
  Py.contains c a = false -> Py.contains c b = false ->
  a +:+ String c x = b +:+ String c y -> a = b.
Proof.
  intros Ha Hb H.
  rewrite <- (first_token_app c a x Ha), <- (first_token_app c b y Hb). now rewrite H.
Qed.

(** *** What a run adds to the store, whatever raises *)
Section Adds.
Import Loader.
Variable E : env.
Variable P : put_op -> Prop.

Lemma adds_ret {A} (a : A) : adds P (ret a).
Proof. intros s r s' H. injection H as <- <-. exists []. now rewrite app_nil_r. Qed.

Lemma adds_raise {A} e : adds P (raise (A := A) e).
Proof. intros s r s' H. injection H as <- <-. exists []. now rewrite app_nil_r. Qed.

Lemma adds_or_raise {A} e (o : option A) : adds P (or_raise e o).
Proof. destruct o; [apply adds_ret | apply adds_raise]. Qed.

Lemma adds_index {A} (l : list A) i : adds P (index l i).
Proof. apply adds_or_raise. Qed.

Lemma adds_gets {A} (f : state -> A) : adds P (gets f).
Proof. intros s r s' H. injection H as <- <-. exists []. now rewrite app_nil_r. Qed.

Lemma adds_modify (f : state -> state) :
  (forall s, puts (f s) = puts s) -> adds P (modify f).
Proof.
  intros Hf s r s' H. injection H as <- <-. exists []. now rewrite app_nil_r, Hf.
Qed.

Lemma adds_bind {A B} (m : M state A) (k : A -> M state B) :
  adds P m -> (forall a, adds P (k a)) -> adds P (bind m k).
Proof.
  intros Hm Hk s r s' H. unfold bind in H.
  destruct (m s) as [[a|e] s1] eqn:Hms.
  - destruct (Hm _ _ _ Hms) as (n1 & Hp1 & HP1).
    destruct (Hk a _ _ _ H) as (n2 & Hp2 & HP2).
    exists (n1 ++ n2). split; [now rewrite Hp2, Hp1, app_assoc | now apply Forall_app].
  - injection H as <- <-. exact (Hm _ _ _ Hms).
Qed.

Lemma adds_ext : adds P (ext E).
Proof.
  intros s r s' H. unfold ext in H.
  exists []. rewrite app_nil_r. destruct (faults E (ticks s)); now injection H as <- <-.
Qed.

Lemma adds_logger_info msg : adds P (logger_info msg).
Proof. now apply adds_modify. Qed.

Lemma adds_table_put t k c :
  P {| put_table := t; put_key := k; put_columns := c |} -> adds P (table_put E t k c).
Proof.
  intros HP. apply adds_bind; [apply adds_ext|]. intros _.
  intros s r s' H. injection H as <- <-. eexists [_]. split; [reflexivity|].
  now constructor.
Qed.

Lemma adds_csv_rows body rows :
  (forall row vy, adds P (body row vy)) ->
  forall n cols vy, adds P (csv_rows E body rows n cols vy).
Proof.
  intros Hbody. induction rows as [|row rows IH]; intros n cols vy; cbn [csv_rows].
  - apply adds_ret.
  - apply adds_bind; [apply adds_ext|]. intros _.
    destruct (n =? 0); [apply IH|].
    apply adds_bind; [apply Hbody|]. intros vy'. apply IH.
Qed.

Lemma adds_hdfs_client_read_csv path : adds P (hdfs_client_read_csv E path).
Proof. apply adds_bind; [apply adds_ext|]. intros _. apply adds_or_raise. Qed.
End Adds.

Lemma lookup_file_adds (E : Loader.env) t dir filename :
  adds (fun p =>
          lookup_data_columns (Py.first_token Py.underscore filename) p \/
          is_metadata_put
            (t +:+ "_" +:+ Py.first_token Py.underscore filename +:+ "_metadata") p)
       (Loader.lookup_file E t dir filename).
Proof.
  unfold Loader.lookup_file. set (src := Py.first_token Py.underscore filename).
  apply adds_bind; [apply adds_hdfs_client_read_csv|]. intros rows.
  apply adds_bind.
  - apply adds_csv_rows. intros row vy. unfold Loader.lookup_row.
    repeat (apply adds_bind; [apply adds_index|]; intros ?).
    apply adds_bind; [| intros _; apply adds_ret].
    apply adds_table_put. left. intros col v Hin. cbn [Loader.put_columns] in Hin.
    assert (Hq : forall q, src +:+ "_data:" +:+ q = (src +:+ "_data") +:+ ":" +:+ q)
      by (intros q; now rewrite append_assoc).
    repeat (destruct Hin as [Hin|Hin];
            [injection Hin as <- _; eexists; split; [| apply Hq]; cbn; tauto|]).
    destruct Hin.
  - intros [[num_rows column_names] vy].
    apply adds_bind; [apply adds_gets|]. intros date.
    apply adds_bind; [| intros _; apply adds_logger_info].
    apply adds_table_put. right. split; reflexivity.
Qed.

Lemma lookup_put_data_columns t src row : lookup_data_columns src (lookup_put t src row).
Proof.
  intros col v H. unfold lookup_put in H. cbn [Loader.put_columns] in H.
  apply in_map_iff in H as ((q & i) & Heq & Hin). injection Heq as <- _.
  exists q. split; [apply (in_map fst _ _ Hin)|].
  now rewrite append_assoc.
Qed.

Lemma lookup_columns_disjoint src1 src2 p1 p2 col v1 v2 :
  Py.contains Py.underscore src1 = false ->
  Py.contains Py.underscore src2 = false ->
  src1 <> src2 ->
  lookup_data_columns src1 p1 -> lookup_data_columns src2 p2 ->
  In (col, v1) (Loader.put_columns p1) ->
  ~ In (col, v2) (Loader.put_columns p2).
Proof.
  intros H1 H2 Hne Hp1 Hp2 Hin1 Hin2.
  apply Hp1 in Hin1 as (q1 & _ & ->).
  apply Hp2 in Hin2 as (q2 & _ & Heq).
  rewrite !append_assoc in Heq.
  apply Hne. exact (token_prefix_inj _ _ _ _ _ H1 H2 Heq).
Qed.

Lemma lookup_column_family src p col v :
  Py.contains Py.colon src = false ->
  lookup_data_columns src p ->
  In (col, v) (Loader.put_columns p) ->
  HBase.column_family col = src +:+ "_data".
Proof.
  intros Hsrc Hp Hin. apply Hp in Hin as (q & _ & ->).
  unfold HBase.column_family. apply first_token_app.
  clear -Hsrc. unfold Py.colon in *. induction src as [|a src IH]; [reflexivity|].
  cbn [Py.contains] in Hsrc. apply orb_false_iff in Hsrc as [Ha Hs].
  rewrite append_cons. cbn [Py.contains]. now rewrite Ha, IH.
Qed.

(** ** C4: the column families of the lookup handler *)

Lemma list_to_map_absent (cols : list (string * string)) (col : string) :
  (forall v, ~ In (col, v) cols) ->
  (list_to_map cols : gmap string string) !! col = None.
Proof.
  intros H. apply not_elem_of_list_to_map_1. intros Hin.
  apply list_elem_of_fmap in Hin as ((k & v) & -> & Hkv).
  apply list_elem_of_In in Hkv. exact (H v Hkv).
Qed.

(** A put of columns that the row does not share leaves the columns of
    the row as they were. *)
Lemma put_keeps_other_columns p cells col :
  (forall v, ~ In (col, v) (Loader.put_columns p)) ->
  default ∅ (HBase.put p cells !! (Loader.put_table p, Loader.put_key p)) !! col
  = default ∅ (cells !! (Loader.put_table p, Loader.put_key p)) !! col.
Proof.
  intros H. unfold HBase.put. rewrite lookup_insert_eq. cbn [from_option id].
  rewrite lookup_union_r by now apply list_to_map_absent.
  reflexivity.
Qed.

(** C4.  Whatever the external calls do, every put the lookup handler
    issues for a staged file is either the metadata row of the file or a
    data row whose columns are all [{token}_data:{qualifier}], where
    [token] is the first underscore-delimited token of the file name; for
    a token without a colon the column family of such a column is
    [{token}_data].  Data rows of two files whose first tokens differ share
    no column, so that when the second is put under the row key of the
    first, the cells of the first stay in the row as they were. *)
Theorem C4_lookup_column_families (E : Loader.env) :
  (forall t dir filename,
      adds (fun p =>
              lookup_data_columns (Py.first_token Py.underscore filename) p \/
              is_metadata_put
                (t +:+ "_" +:+ Py.first_token Py.underscore filename +:+ "_metadata") p)
           (Loader.lookup_file E t dir filename)) /\
  (forall filename p col v,
      Py.contains Py.colon (Py.first_token Py.underscore filename) = false ->
      lookup_data_columns (Py.first_token Py.underscore filename) p ->
      In (col, v) (Loader.put_columns p) ->
      HBase.column_family col = Py.first_token Py.underscore filename +:+ "_data") /\
  (forall f1 f2 p1 p2,
      Py.first_token Py.underscore f1 <> Py.first_token Py.underscore f2 ->
      lookup_data_columns (Py.first_token Py.underscore f1) p1 ->
      lookup_data_columns (Py.first_token Py.underscore f2) p2 ->
      (forall col v1 v2,
          In (col, v1) (Loader.put_columns p1) -> ~ In (col, v2) (Loader.put_columns p2)) /\
      (Loader.put_table p1 = Loader.put_table p2 ->
       Loader.put_key p1 = Loader.put_key p2 ->
       forall cells col v1,
         In (col, v1) (Loader.put_columns p1) ->
         default ∅ (HBase.put p2 (HBase.put p1 cells)
                      !! (Loader.put_table p1, Loader.put_key p1)) !! col
         = default ∅ (HBase.put p1 cells !! (Loader.put_table p1, Loader.put_key p1)) !! col)).
Proof.
  split; [| split].
  - intros t dir filename. apply lookup_file_adds.
  - intros filename p col v. apply lookup_column_family.
  - intros f1 f2 p1 p2 Hne Hp1 Hp2.
    assert (Hdis : forall col v1 v2,
               In (col, v1) (Loader.put_columns p1) -> ~ In (col, v2) (Loader.put_columns p2)).
    { intros col v1 v2.
      apply (lookup_columns_disjoint _ _ p1 p2 col v1 v2
               (first_token_clean _ f1) (first_token_clean _ f2) Hne Hp1 Hp2). }
    split; [exact Hdis|].
    intros Ht Hk cells col v1 Hin. rewrite Ht, Hk.
    apply put_keeps_other_columns. intros v2. exact (Hdis col v1 v2 Hin).
Qed.

Lemma C4_lookup_column_families_witness :
  let E := quiet_env nothing (serve "dir/income_lookup.csv" [lookup_header; lookup_row_raval])
             nothing in
  let p1 := lookup_put "lookup_tables" "income" lookup_row_raval in
  let p2 := lookup_put "lookup_tables" "idealista" lookup_row_raval in
  (exists new,
      Loader.puts (snd (Loader.lookup_file E "lookup_tables" "dir" "income_lookup.csv" connected))
      = Loader.puts connected ++ new /\
      Forall (fun p => lookup_data_columns "income" p \/
                       is_metadata_put "lookup_tables_income_metadata" p) new) /\
  HBase.column_family "income_data:district" = "income_data" /\
  (forall col v1 v2,
      In (col, v1) (Loader.put_columns p1) -> ~ In (col, v2) (Loader.put_columns p2)) /\
  (forall cells col v1,
      In (col, v1) (Loader.put_columns p1) ->
      default ∅ (HBase.put p2 (HBase.put p1 cells)
                   !! (Loader.put_table p1, Loader.put_key p1)) !! col
      = default ∅ (HBase.put p1 cells !! (Loader.put_table p1, Loader.put_key p1)) !! col).
Proof.
  intros E p1 p2.
  pose proof (C4_lookup_column_families E) as (Hadds & Hfam & Hdis).
  split; [| split].
  - apply (Hadds "lookup_tables" "dir" "income_lookup.csv" connected
             (fst (Loader.lookup_file E "lookup_tables" "dir" "income_lookup.csv" connected))
             _ (surjective_pairing _)).
  - apply (Hfam "income_lookup.csv" p1 "income_data:district" "Ciutat Vella" eq_refl
             (lookup_put_data_columns _ _ _)).
    left. reflexivity.
  - destruct (Hdis "income_lookup.csv" "idealista_lookup.csv" p1 p2
                ltac:(discriminate)
                (lookup_put_data_columns _ _ _) (lookup_put_data_columns _ _ _))
      as [H1 H2].
    split; [exact H1 | exact (H2 eq_refl eq_refl)].
Defined.

(** ** The collector when no external call raises *)

Lemma append_nil_r s : s +:+ "" = s.
Proof. induction s as [|a s IH]; [reflexivity|]. now rewrite append_cons, IH. Qed.

(** [makedirs] and [write] make the path itself exist. *)
Lemma prefixes_self done todo : In (done +:+ todo) (Collector.prefixes done todo).
Proof.
  revert done. induction todo as [|a todo IH]; intros done; cbn [Collector.prefixes].
  - rewrite append_nil_r. now left.
  - assert (H : In (done +:+ String a todo) (Collector.prefixes (done +:+ String a "") todo)).
    { specialize (IH (done +:+ String a "")). now rewrite append_assoc in IH. }
    destruct (Py.ch_eq a Py.slash && negb (String.eqb done "")); [now right | exact H].
Qed.

Section CollectorFacts.
Import Collector.
Variable E : env.
Hypothesis Hnf : no_faults (faults E).

Lemma collector_ext_ok s : ext E s = (Ok tt, tick s).
Proof. unfold ext. now rewrite Hnf. Qed.

Lemma the_client_ok c s : client s = Some c -> the_client s = (Ok c, s).
Proof.
  intros H. unfold the_client. erewrite bind_ok; [| reflexivity]. now rewrite H.
Qed.

Lemma create_hdfs_dir_ok folder c s :
  client s = Some c ->
  exists s',
    create_hdfs_dir E folder s = (Ok tt, s') /\
    client s' = Some c /\
    writes s' = writes s /\
    closed s' = closed s /\
    makedirs_calls s' = makedirs_calls s ++ created folder s /\
    folder ∈ hdfs_paths s' /\
    hdfs_paths s ⊆ hdfs_paths s'.
Proof.
  intros Hc. unfold create_hdfs_dir, try_except, create_hdfs_dir_body, status_is_none, created.
  erewrite bind_ok;
    [| erewrite bind_ok; [| apply the_client_ok, Hc];
       erewrite bind_ok; [| apply collector_ext_ok]; reflexivity].
  cbn [hdfs_paths tick].
  destruct (bool_decide (folder ∈ hdfs_paths s)) eqn:Hin; cbn [negb].
  - apply bool_decide_eq_true in Hin.
    eexists. split; [reflexivity|]. cbn. rewrite app_nil_r. now repeat split.
  - erewrite bind_ok; [| apply collector_ext_ok].
    eexists. split; [reflexivity|]. cbn. repeat split; try assumption.
    + apply elem_of_union_l, elem_of_list_to_set, list_elem_of_In.
      apply (prefixes_self "" folder).
    + apply union_subseteq_r.
Qed.
End CollectorFacts.

(** C7.  When no external call raises, [create_hdfs_dir] called twice in
    succession on a path, on a collector whose client is set, returns
    both times; for a directory that is absent at first the first call
    issues one [makedirs] for the path and the second none, and for a
    directory that exists both calls issue none. *)
Theorem C7_create_hdfs_dir_twice (E : Collector.env) (s : Collector.state)
        (c : Collector.hdfs_client) (folder : string) :
  no_faults (Collector.faults E) ->
  Collector.client s = Some c ->
  exists s1 s2,
    Collector.create_hdfs_dir E folder s = (Ok tt, s1) /\
    Collector.create_hdfs_dir E folder s1 = (Ok tt, s2) /\
    (folder ∉ Collector.hdfs_paths s ->
     Collector.makedirs_calls s1 = Collector.makedirs_calls s ++ [folder] /\
     Collector.makedirs_calls s2 = Collector.makedirs_calls s1) /\
    (folder ∈ Collector.hdfs_paths s ->
     Collector.makedirs_calls s1 = Collector.makedirs_calls s /\
     Collector.makedirs_calls s2 = Collector.makedirs_calls s1).
Proof.
  intros Hnf Hc.
  destruct (create_hdfs_dir_ok E Hnf folder c s Hc) as (s1 & Hr1 & Hc1 & _ & _ & Hm1 & Hin1 & _).
  destruct (create_hdfs_dir_ok E Hnf folder c s1 Hc1) as (s2 & Hr2 & _ & _ & _ & Hm2 & _).
  exists s1, s2. split; [exact Hr1|]. split; [exact Hr2|].
  assert (Hsecond : Collector.makedirs_calls s2 = Collector.makedirs_calls s1).
  { rewrite Hm2. unfold created. rewrite bool_decide_eq_true_2 by exact Hin1.
    apply app_nil_r. }
  split; intros Hs; (split; [| exact Hsecond]); rewrite Hm1; unfold created.
  - now rewrite bool_decide_eq_false_2.
  - rewrite bool_decide_eq_true_2 by exact Hs. apply app_nil_r.
Qed.

Lemma C7_create_hdfs_dir_twice_witness :
  let E := quiet_collector nothing nothing in
  (exists s1 s2,
      Collector.create_hdfs_dir E "landing/csv" collecting = (Ok tt, s1) /\
      Collector.create_hdfs_dir E "landing/csv" s1 = (Ok tt, s2) /\
      Collector.makedirs_calls s1 = Collector.makedirs_calls collecting ++ ["landing/csv"] /\
      Collector.makedirs_calls s2 = Collector.makedirs_calls s1) /\
  (exists s1 s2,
      Collector.create_hdfs_dir E "landing/csv" collecting_with_csv = (Ok tt, s1) /\
      Collector.create_hdfs_dir E "landing/csv" s1 = (Ok tt, s2) /\
      Collector.makedirs_calls s1 = Collector.makedirs_calls collecting_with_csv /\
      Collector.makedirs_calls s2 = Collector.makedirs_calls s1).
Proof.
  intros E. split.
  - destruct (C7_create_hdfs_dir_twice E collecting _ "landing/csv" (fun _ => eq_refl) eq_refl)
      as (s1 & s2 & H1 & H2 & Habsent & _).
    exists s1, s2. split; [exact H1|]. split; [exact H2|].
    apply Habsent, not_elem_of_empty.
  - destruct (C7_create_hdfs_dir_twice E collecting_with_csv _ "landing/csv"
                (fun _ => eq_refl) eq_refl)
      as (s1 & s2 & H1 & H2 & _ & Hpresent).
    exists s1, s2. split; [exact H1|]. split; [exact H2|].
    apply Hpresent.
    apply elem_of_union_l, elem_of_list_to_set, list_elem_of_In.
    right. left. reflexivity.
Defined.

(** ** C6: the staging folder of a harvested resource *)

Lemma first_token_whole c s : Py.contains c s = false -> Py.first_token c s = s.
Proof.
  induction s as [|a s IH]; intros H; [reflexivity|].
  cbn [Py.contains] in H. apply orb_false_iff in H as [Ha Hs].
  rewrite first_token_cons, Ha. now rewrite IH.
Qed.

Section Harvest.
Import Collector.
Variable E : env.
Hypothesis Hnf : no_faults (faults E).

Lemma client_write_ok path data c s :
  client s = Some c ->
  client_write E path data s = (Ok tt, do_write path data (tick s)).
Proof.
  intros Hc. unfold client_write.
  erewrite bind_ok; [| apply the_client_ok, Hc].
  erewrite bind_ok; [| apply collector_ext_ok, Hnf]. reflexivity.
Qed.

Lemma download_resource_ok r info c s :
  client s = Some c ->
  catalog_resource E r info ->
  exists s',
    download_resource E r s = (Ok tt, s') /\
    client s' = Some c /\
    writes s' = writes s ++ [staged_file E info] /\
    makedirs_calls s' = makedirs_calls s ++ created (new_folder_of E (resource_name info)) s /\
    new_folder_of E (resource_name info) ∈ hdfs_paths s' /\
    hdfs_paths s ⊆ hdfs_paths s'.
Proof.
  destruct info as [[url name] content]. intros Hc (d & -> & Hurl & Hname & Hbody).
  unfold download_resource, subscript. rewrite Hurl, Hname.
  erewrite bind_ok; [| reflexivity]. erewrite bind_ok; [| reflexivity].
  destruct (create_hdfs_dir_ok E Hnf (new_folder_of E name) c s Hc)
    as (s1 & Hr1 & Hc1 & Hw1 & _ & Hm1 & Hin1 & Hsub1).
  erewrite bind_ok; [| exact Hr1].
  erewrite bind_ok; [| apply collector_ext_ok, Hnf].
  rewrite Hbody. erewrite bind_ok; [| reflexivity].
  erewrite client_write_ok by exact Hc1.
  eexists. split; [reflexivity|]. cbn.
  repeat split; try assumption.
  - now rewrite Hw1.
  - now apply elem_of_union_r.
  - etrans; [exact Hsub1 | apply union_subseteq_r].
Qed.

Lemma download_resources_ok resources infos :
  Forall2 (catalog_resource E) resources infos ->
  forall c s,
    client s = Some c ->
    exists s' new,
      for_each resources (download_resource E) s = (Ok tt, s') /\
      client s' = Some c /\
      writes s' = writes s ++ map (staged_file E) infos /\
      makedirs_calls s' = makedirs_calls s ++ new /\
      (forall f, In f new -> exists info, In info infos /\ f = new_folder_of E (resource_name info)) /\
      (forall info, In info infos -> new_folder_of E (resource_name info) ∈ hdfs_paths s') /\
      hdfs_paths s ⊆ hdfs_paths s'.
Proof.
  induction 1 as [|r info resources infos Hr _ IH]; intros c s Hc.
  - exists s, []. cbn. rewrite !app_nil_r.
    split; [reflexivity|]. split; [exact Hc|]. split; [reflexivity|]. split; [reflexivity|].
    split; [intros ? []|]. split; [intros ? [] | reflexivity].
  - destruct (download_resource_ok r info c s Hc Hr)
      as (s1 & Hr1 & Hc1 & Hw1 & Hm1 & Hin1 & Hsub1).
    destruct (IH c s1 Hc1) as (s2 & new & Hr2 & Hc2 & Hw2 & Hm2 & Hnew & Hin2 & Hsub2).
    exists s2, (created (new_folder_of E (resource_name info)) s ++ new).
    cbn [for_each]. erewrite bind_ok; [| exact Hr1].
    split; [exact Hr2|]. split; [exact Hc2|].
    split; [rewrite Hw2, Hw1; cbn [map]; now rewrite <- app_assoc|].
    split; [rewrite Hm2, Hm1; now rewrite <- app_assoc|].
    split; [| split].
    + intros f Hf. apply in_app_or in Hf as [Hf|Hf].
      * exists info. split; [now left|].
        unfold created in Hf. destruct (bool_decide _); [destruct Hf|].
        destruct Hf as [<-|[]]. reflexivity.
      * destruct (Hnew f Hf) as (i & Hi & ->). exists i. split; [now right | reflexivity].
    + intros i [<-|Hi]; [now apply Hsub2 | now apply Hin2].
    + etrans; eassumption.
Qed.
End Harvest.

(** C6 (as amended).  The staging folder of a resource is derived from
    the part of its declared name before the first dot: the first
    underscore-delimited token of that part is dropped and the rest joined
    with underscores (for a name without a dot this is the derivation from
    the whole name).  When no external call raises, the client is set and
    every resource of the catalog answer has a text url, a text name and
    a body, the harvest returns after writing, for every resource in
    order, its body at the path of its name inside the folder so derived
    under the CSV staging directory; that folder exists afterwards, and
    every [makedirs] the harvest issued is for the folder of a resource. *)
Theorem C6_harvest_folder (E : Collector.env) (s : Collector.state) (c : Collector.hdfs_client)
        (resources : list Py.pyval) (infos : list (string * string * string)) :
  no_faults (Collector.faults E) ->
  Collector.client s = Some c ->
  Collector.catalog E (Collector.package_show_url "est_vehicles_index_motor") = Some resources ->
  Forall2 (catalog_resource E) resources infos ->
  (forall name,
      Collector.data_name_str name = spec_folder_name (Py.first_token Py.dot name) /\
      Collector.new_folder_of E name = spec_new_folder E (Py.first_token Py.dot name) /\
      (Py.contains Py.dot name = false ->
       Collector.new_folder_of E name = spec_new_folder E name)) /\
  exists s' new,
    Collector.download_from_opendata_api_to_hdfs E s = (Ok tt, s') /\
    Collector.writes s' = Collector.writes s ++ map (staged_file E) infos /\
    Collector.makedirs_calls s' = Collector.makedirs_calls s ++ new /\
    (forall f, In f new ->
       exists info, In info infos /\ f = Collector.new_folder_of E (resource_name info)) /\
    (forall info, In info infos ->
       Collector.new_folder_of E (resource_name info) ∈ Collector.hdfs_paths s').
Proof.
  intros Hnf Hc Hcat Hres. split.
  - intros name. split; [reflexivity|]. split; [reflexivity|].
    intros Hdot. unfold spec_new_folder. now rewrite <- (first_token_whole _ _ Hdot) at 2.
  - destruct (download_resources_ok E Hnf resources infos Hres c (Collector.tick (Collector.tick s)) Hc)
      as (s' & new & Hrun & _ & Hw & Hm & Hnew & Hin & _).
    exists s', new.
    split; [| now repeat split].
    unfold Collector.download_from_opendata_api_to_hdfs, try_except,
      Collector.download_from_opendata_api_to_hdfs_body.
    erewrite bind_ok; [| apply collector_ext_ok, Hnf].
    erewrite bind_ok; [| apply collector_ext_ok, Hnf].
    rewrite Hcat. erewrite bind_ok; [| reflexivity].
    now rewrite Hrun.
Qed.

Lemma C6_harvest_folder_witness :
  let E := quiet_collector
             (serve "https://opendata-ajuntament.barcelona.cat/data/api/3/action/package_show?id=est_vehicles_index_motor"
                [motor_2019])
             (serve "https://opendata/2019_index_motor.csv" "Any,Index") in
  let info := ("https://opendata/2019_index_motor.csv", "2019_index_motor.csv", "Any,Index") in
  Collector.new_folder_of E "2019_index_motor.csv" = "landing/csv/index_motor" /\
  exists s' new,
    Collector.download_from_opendata_api_to_hdfs E collecting = (Ok tt, s') /\
    Collector.writes s' = Collector.writes collecting ++ map (staged_file E) [info] /\
    Collector.makedirs_calls s' = Collector.makedirs_calls collecting ++ new /\
    (forall f, In f new ->
       exists i, In i [info] /\ f = Collector.new_folder_of E (resource_name i)) /\
    (forall i, In i [info] ->
       Collector.new_folder_of E (resource_name i) ∈ Collector.hdfs_paths s').
Proof.
  intros E info. split; [reflexivity|].
  apply (C6_harvest_folder E collecting _ [motor_2019] [info] (fun _ => eq_refl) eq_refl eq_refl).
  constructor; [| constructor].
  eexists. repeat split; reflexivity.
Defined.

(** C6 as the specification states it fails on a name with an extension:
    for the resource [2019_index_motor.csv] the specification's
    derivation gives the folder [index_motor.csv], while the harvest
    creates and writes into [index_motor]. *)
Lemma C6_counterexample :
  let E := quiet_collector
             (serve "https://opendata-ajuntament.barcelona.cat/data/api/3/action/package_show?id=est_vehicles_index_motor"
                [motor_2019])
             (serve "https://opendata/2019_index_motor.csv" "Any,Index") in
  let s' := snd (Collector.download_from_opendata_api_to_hdfs E collecting) in
  spec_folder_name "2019_index_motor.csv" = "index_motor.csv" /\
  Collector.data_name_str "2019_index_motor.csv" = "index_motor" /\
  Collector.makedirs_calls s' = ["landing/csv/index_motor"] /\
  Collector.writes s' = [("landing/csv/index_motor/2019_index_motor.csv", "Any,Index")] /\
  ~ (Collector.data_name_str "2019_index_motor.csv" = spec_folder_name "2019_index_motor.csv") /\
  ~ In (spec_new_folder E "2019_index_motor.csv") (Collector.makedirs_calls s').
Proof.
  repeat split; try reflexivity.
  - discriminate.
  - vm_compute. intros [H|[]]. discriminate.
Qed.

(** ** C8: what the handlers do with an exception *)

Lemma loader_on_error_total e s :
  exists s', Loader.on_error e s = (Ok tt, s') /\
             Loader.connection s' = None /\
             Loader.puts s' = Loader.puts s /\
             exists l, Loader.log s' = Loader.log s ++ l ++ [Exception e].
Proof.
  unfold Loader.on_error, Loader.close.
  destruct (Loader.connection s) as [c|] eqn:Hc.
  - eexists. split.
    + erewrite bind_ok; [reflexivity|].
      erewrite bind_ok; [| reflexivity]. cbn beta. rewrite Hc. reflexivity.
    + cbn. repeat split.
      exists [Info "Closing HBase connection"; Info "HBase connection closed"].
      now rewrite <- !app_assoc.
  - eexists. split.
    + erewrite bind_ok; [reflexivity|].
      erewrite bind_ok; [| reflexivity]. cbn beta. rewrite Hc. reflexivity.
    + cbn. repeat split; [assumption|]. now exists [].
Qed.

Lemma loader_try_guarded body : loader_guarded (try_except body Loader.on_error) body.
Proof.
  intros s. unfold try_except.
  destruct (body s) as [[[]|e] s1] eqn:Hbody.
  - exists s1. split; [reflexivity|]. split; [now intros ? [= <-] | discriminate].
  - destruct (loader_on_error_total e s1) as (s' & Hr & Hc & Hp & Hl).
    exists s'. split; [exact Hr|]. split; [discriminate|].
    intros e' s1' [= <- <-]. now repeat split.
Qed.

Section KeepsClient.
Import Collector.
Variable E : env.























End KeepsClient.







(** * Further properties of the code *)

(** ** A loader that lost its connection *)

Lemma disconnected_handler (E : Loader.env) name flag
      (rest : string -> M Loader.state unit) s :
  Loader.connection s = None ->
  try_except (Loader.create_table E name flag ;;; table <- Loader.get_table name ;; rest table)
             Loader.on_error s
  = (Ok tt, refused s).
Proof.
  intros Hc.
  assert (Hcreate : Loader.create_table E name flag s
                    = (Ok tt, Loader.add_log (Exception AttributeError) s)).
  { unfold Loader.create_table, try_except, Loader.create_table_body, Loader.the_connection.
    erewrite bind_raise; [| erewrite bind_ok; [| reflexivity]; rewrite Hc; reflexivity].
    unfold Loader.on_error, Loader.close.
    erewrite bind_ok; [reflexivity|].
    erewrite bind_ok; [| reflexivity]. cbn beta. now rewrite Hc. }
  unfold try_except.
  erewrite bind_ok; [| exact Hcreate].
  erewrite bind_raise.
  2:{ unfold Loader.get_table, Loader.the_connection.
      erewrite bind_raise; [reflexivity|].
      erewrite bind_ok; [| reflexivity]. cbn. rewrite Hc. reflexivity. }
  unfold Loader.on_error, Loader.close.
  erewrite bind_ok; [reflexivity|].
  erewrite bind_ok; [| reflexivity]. cbn. now rewrite Hc.
Qed.

Lemma disconnected_loads (E : Loader.env) (s : Loader.state) :
  Loader.connection s = None ->
  Loader.load_opendatabcn_income E s = (Ok tt, refused s) /\
  Loader.load_veh_index_motoritzacio E s = (Ok tt, refused s) /\
  Loader.load_lookup_tables E s = (Ok tt, refused s) /\
  Loader.load_idealista E s = (Ok tt, refused s).
Proof.
  intros Hc. repeat split; apply disconnected_handler; exact Hc.
Qed.

(** X1.  On a loader whose connection is [None] each of the four load
    handlers returns without a single external call: nothing is listed,
    read or put, whatever the staging area holds; the only trace is two
    logged [AttributeError]s. *)
Theorem X1_disconnected_loader_loads_nothing (E : Loader.env) (s : Loader.state) :
  Loader.connection s = None ->
  Loader.load_opendatabcn_income E s = (Ok tt, refused s) /\
  Loader.load_veh_index_motoritzacio E s = (Ok tt, refused s) /\
  Loader.load_lookup_tables E s = (Ok tt, refused s) /\
  Loader.load_idealista E s = (Ok tt, refused s) /\
  Loader.puts (refused s) = Loader.puts s /\
  Loader.ticks (refused s) = Loader.ticks s /\
  Loader.connection (refused s) = None.
Proof.
  intros Hc.
  destruct (disconnected_loads E s Hc) as (H1 & H2 & H3 & H4).
  now repeat split.
Qed.

Lemma X1_disconnected_loader_loads_nothing_witness :
  let E := quiet_env (serve "landing/csv/opendatabcn-income" ["income_2021.csv"])
             (serve "landing/csv/opendatabcn-income/income_2021.csv"
                [income_header; income_row_2021]) nothing in
  Loader.load_opendatabcn_income E disconnected = (Ok tt, refused disconnected) /\
  Loader.load_veh_index_motoritzacio E disconnected = (Ok tt, refused disconnected) /\
  Loader.load_lookup_tables E disconnected = (Ok tt, refused disconnected) /\
  Loader.load_idealista E disconnected = (Ok tt, refused disconnected) /\
  Loader.puts (refused disconnected) = Loader.puts disconnected /\
  Loader.ticks (refused disconnected) = Loader.ticks disconnected /\
  Loader.connection (refused disconnected) = None.
Proof.
  intros E. apply (X1_disconnected_loader_loads_nothing E disconnected eq_refl).
Defined.

(** ** The persistence-loading mode of main.py *)

Lemma close_total s :
  exists s', Loader.close s = (Ok tt, s') /\
             Loader.connection s' = None /\
             Loader.puts s' = Loader.puts s /\
             Loader.closed s' = match Loader.connection s with
                        | Some _ => S (Loader.closed s)
                        | None => Loader.closed s
                        end.
Proof.
  unfold Loader.close. erewrite bind_ok; [| reflexivity]. cbn beta.
  destruct (Loader.connection s) eqn:Hc; eexists; (split; [reflexivity|]); cbn; now repeat split.
Qed.

Lemma close_disconnected s : Loader.connection s = None -> Loader.close s = (Ok tt, s).
Proof.
  intros Hc. unfold Loader.close. erewrite bind_ok; [| reflexivity]. cbn beta. now rewrite Hc.
Qed.

(** X2.  The persistence-loading mode never raises to its caller.  When
    the constructor raises, the only thing done after it is the logging of
    that exception.  When the constructor returns, the mode ends with the
    connection closed and the line "Persistence Loading completed
    successfully." logged last, whatever the four handlers met; in
    particular, when the constructor returned without a connection (its
    [connect] failed), that line is logged although no handler made a
    single put. *)
Theorem X2_persistence_loading_reports_success (E : Loader.env) (s : Loader.state) :
  (exists s', Main.persistence_loading E s = (Ok tt, s')) /\
  (forall e s1,
      Loader.init E s = (Raise e, s1) ->
      Main.persistence_loading E s = (Ok tt, Loader.add_log (Exception e) s1)) /\
  (forall s1,
      Loader.init E s = (Ok tt, s1) ->
      exists s' l,
        Main.persistence_loading E s = (Ok tt, s') /\
        Loader.connection s' = None /\
        Loader.log s' = l ++ [Info "Persistence Loading completed successfully."] /\
        (Loader.connection s1 = None -> Loader.puts s' = Loader.puts s1)).
Proof.
  assert (Hraise : forall e s1,
             Loader.init E s = (Raise e, s1) ->
             Main.persistence_loading E s = (Ok tt, Loader.add_log (Exception e) s1)).
  { intros e s1 Hinit. unfold Main.persistence_loading, try_except, Main.persistence_loading_body.
    erewrite bind_raise; [| exact Hinit]. reflexivity. }
  assert (Hok : forall s1,
             Loader.init E s = (Ok tt, s1) ->
             exists s' l,
               Main.persistence_loading E s = (Ok tt, s') /\
               Loader.connection s' = None /\
               Loader.log s' = l ++ [Info "Persistence Loading completed successfully."] /\
               (Loader.connection s1 = None -> Loader.puts s' = Loader.puts s1)).
  { intros s1 Hinit.
    destruct (loader_try_guarded (Loader.load_opendatabcn_income_body E) s1) as (s2 & H2 & _).
    destruct (loader_try_guarded (Loader.load_veh_index_motoritzacio_body E) s2) as (s3 & H3 & _).
    destruct (loader_try_guarded (Loader.load_lookup_tables_body E) s3) as (s4 & H4 & _).
    destruct (loader_try_guarded (Loader.load_idealista_body E) s4) as (s5 & H5 & _).
    destruct (close_total s5) as (s6 & H6 & Hc6 & Hp6 & _).
    exists (Loader.add_log (Info "Persistence Loading completed successfully.") s6),
           (Loader.log s6).
    split; [| split; [exact Hc6 | split; [reflexivity|]]].
    - unfold Main.persistence_loading, try_except, Main.persistence_loading_body.
      erewrite bind_ok; [| exact Hinit].
      erewrite bind_ok; [| exact H2]. erewrite bind_ok; [| exact H3].
      erewrite bind_ok; [| exact H4]. erewrite bind_ok; [| exact H5].
      erewrite bind_ok; [| exact H6]. reflexivity.
    - intros Hc1.
      destruct (disconnected_loads E s1 Hc1) as (E2 & _).
      change (Loader.load_opendatabcn_income E s1 = (Ok tt, s2)) in H2.
      rewrite E2 in H2. injection H2 as <-.
      destruct (disconnected_loads E (refused s1) Hc1) as (_ & E3 & _).
      change (Loader.load_veh_index_motoritzacio E (refused s1) = (Ok tt, s3)) in H3.
      rewrite E3 in H3. injection H3 as <-.
      destruct (disconnected_loads E (refused (refused s1)) Hc1)
        as (_ & _ & E4 & _).
      change (Loader.load_lookup_tables E (refused (refused s1)) = (Ok tt, s4)) in H4.
      rewrite E4 in H4. injection H4 as <-.
      destruct (disconnected_loads E (refused (refused (refused s1))) Hc1)
        as (_ & _ & _ & E5).
      change (Loader.load_idealista E (refused (refused (refused s1))) = (Ok tt, s5)) in H5.
      rewrite E5 in H5. injection H5 as <-.
      cbn [Loader.puts Loader.add_log]. rewrite Hp6. reflexivity. }
  split; [| split; [exact Hraise | exact Hok]].
  destruct (Loader.init E s) as [[[]|e] s1] eqn:Hinit.
  - destruct (Hok s1 eq_refl) as (s' & _ & H & _). now exists s'.
  - eexists. apply Hraise. reflexivity.
Qed.

Lemma X2_persistence_loading_reports_success_witness :
  exists s' l,
    Main.persistence_loading unreachable_hbase disconnected = (Ok tt, s') /\
    Loader.connection s' = None /\
    Loader.log s' = l ++ [Info "Persistence Loading completed successfully."] /\
    Loader.puts s' = [].
Proof.
  destruct (X2_persistence_loading_reports_success unreachable_hbase disconnected)
    as (_ & _ & Hok).
  destruct (Hok _ eq_refl) as (s' & l & Hrun & Hc & Hl & Hp).
  exists s', l. split; [exact Hrun|]. split; [exact Hc|]. split; [exact Hl|].
  exact (Hp eq_refl).
Defined.

(** ** Files of another extension *)

Lemma bind_ext {S A B} (m : M S A) (k1 k2 : A -> M S B) s :
  (forall a s', k1 a s' = k2 a s') -> bind m k1 s = bind m k2 s.
Proof. intros H. unfold bind. destruct (m s) as [[a|e] s']; [apply H | reflexivity]. Qed.

(** X3.  The handlers open only the files whose name ends, in this exact
    case, with the extension of the source: whatever the external calls
    do, a run over a listing is the run over the listing with the other
    names removed ([.csv] for the three CSV handlers, [.json] for the
    listings handler). *)
Theorem X3_other_extensions_are_skipped (E : Loader.env) :
  (forall body t dir names vy s,
      Loader.yearly_files E body t dir names vy s
      = Loader.yearly_files E body t dir
          (List.filter (fun f => Py.endswith f ".csv") names) vy s) /\
  (forall t dir names s,
      Loader.lookup_files E t dir names s
      = Loader.lookup_files E t dir (List.filter (fun f => Py.endswith f ".csv") names) s) /\
  (forall t dir names vt s,
      Loader.idealista_files E t dir names vt s
      = Loader.idealista_files E t dir
          (List.filter (fun f => Py.endswith f ".json") names) vt s).
Proof.
  split; [| split].
  - intros body t dir names. induction names as [|f names IH]; intros vy s; [reflexivity|].
    cbn [Loader.yearly_files List.filter].
    destruct (Py.endswith f ".csv") eqn:Hf; [| apply IH].
    cbn [Loader.yearly_files]. rewrite Hf. apply bind_ext. intros vy' s'. apply IH.
  - intros t dir names. unfold Loader.lookup_files.
    induction names as [|f names IH]; intros s; [reflexivity|].
    cbn [for_each List.filter].
    destruct (Py.endswith f ".csv") eqn:Hf.
    + cbn [for_each]. rewrite Hf. apply bind_ext. intros _ s'. apply IH.
    + erewrite bind_ok; [| reflexivity]. apply IH.
  - intros t dir names. induction names as [|f names IH]; intros vt s; [reflexivity|].
    cbn [Loader.idealista_files List.filter].
    destruct (Py.endswith f ".json") eqn:Hf; [| apply IH].
    cbn [Loader.idealista_files]. rewrite Hf. apply bind_ext. intros vt' s'. apply IH.
Qed.

(** ** What a file leaves in the store when something fails *)

Section AnyRun.
Import Loader.
Variable E : env.

Lemma ext_inv s r s' :
  ext E s = (r, s') -> s' = tick s /\ (r = Ok tt \/ exists e, r = Raise e).
Proof.
  unfold ext. destruct (faults E (ticks s)) as [e|]; intros [= <- <-];
    (split; [reflexivity|]); [right; now exists e | now left].
Qed.

Lemma bind_inv {A B} (m : M state A) (k : A -> M state B) s r s' :
  bind m k s = (r, s') ->
  (exists e, m s = (Raise e, s') /\ r = Raise e) \/
  (exists a s1, m s = (Ok a, s1) /\ k a s1 = (r, s')).
Proof.
  unfold bind. destruct (m s) as [[a|e] s1].
  - intros H. right. now exists a, s1.
  - intros [= <- <-]. left. now exists e.
Qed.

Lemma bind_index_inv {B} (row : list string) i (k : string -> M state B) s r s' :
  bind (index row i) k s = (r, s') ->
  (r = Raise IndexError /\ s' = s) \/ k (cell row i) s = (r, s').
Proof.
  unfold bind, index, or_raise, cell.
  destruct (nth_error row i) as [x|] eqn:Hx.
  - rewrite (nth_error_nth _ _ _ Hx). cbn. now right.
  - cbn. intros [= <- <-]. now left.
Qed.

Lemma bind_table_put_inv {B} t key c (k : unit -> M state B) s r s' :
  bind (table_put E t key c) k s = (r, s') ->
  (exists e, r = Raise e /\ puts s' = puts s) \/
  k tt (add_put {| put_table := t; put_key := key; put_columns := c |} (tick s)) = (r, s').
Proof.
  intros H. apply bind_inv in H as [(e & Hm & ->) | (a & s1 & Hm & Hk)].
  - left. exists e. split; [reflexivity|].
    unfold table_put in Hm. apply bind_inv in Hm as [(e' & Hx & _) | (a & s1 & Hx & Hk)].
    + apply ext_inv in Hx as [-> _]. reflexivity.
    + discriminate.
  - right. unfold table_put in Hm. apply bind_inv in Hm as [(e' & Hx & ?) | (a' & s2 & Hx & Hk')].
    + discriminate.
    + apply ext_inv in Hx as [-> _]. injection Hk' as <- <-. exact Hk.
Qed.

Ltac index_step H :=
  apply bind_index_inv in H as [[-> ->] | H]; [left; now exists IndexError|].

Lemma income_row_puts t : puts_row (income_row E t) (income_put t).
Proof.
  intros row vy s r s' H. unfold income_row in H.
  do 7 index_step H.
  apply bind_table_put_inv in H as [(e & -> & Hp) | H]; [left; now exists e|].
  injection H as <- <-. now right.
Qed.

Lemma veh_row_puts t : puts_row (veh_row E t) (veh_put t).
Proof.
  intros row vy s r s' H. unfold veh_row in H.
  do 8 index_step H.
  apply bind_table_put_inv in H as [(e & -> & Hp) | H]; [left; now exists e|].
  injection H as <- <-. now right.
Qed.

Lemma csv_rows_any body f :
  puts_row body f ->
  forall rows n cols vy s r s',
    0 < n ->
    csv_rows E body rows n cols vy s = (r, s') ->
    (exists e k, r = Raise e /\ puts s' = puts s ++ map f (List.firstn k rows)) \/
    (r = Ok (n + Z.of_nat (length rows), cols, last_year rows vy) /\
     puts s' = puts s ++ map f rows).
Proof.
  intros Hbody rows. induction rows as [|row rows IH]; intros n cols vy s r s' Hn H.
  - injection H as <- <-. right. cbn. rewrite app_nil_r.
    split; [| reflexivity]. now replace (n + Z.of_nat 0) with n by lia.
  - cbn [csv_rows] in H.
    apply bind_inv in H as [(e & Hx & ->) | ([] & s1 & Hx & H)].
    + apply ext_inv in Hx as [-> _]. left. exists e, 0%nat. cbn. now rewrite app_nil_r.
    + apply ext_inv in Hx as [-> _].
      destruct (Z.eqb_spec n 0) as [->|_]; [lia|].
      apply bind_inv in H as [(e & Hb & ->) | (vy' & s2 & Hb & H)].
      * apply Hbody in Hb as [(e' & _ & Hp) | (? & _)]; [| discriminate].
        left. exists e, 0%nat. cbn in *. now rewrite app_nil_r.
      * apply Hbody in Hb as [(e' & ? & _) | (Hv & Hp)]; [discriminate|].
        injection Hv as ->.
        apply IH in H as [(e & k & -> & Hp') | (-> & Hp')]; [| | lia].
        -- left. exists e, (S k). split; [reflexivity|].
           rewrite Hp', Hp. cbn. now rewrite <- app_assoc.
        -- right. split.
           ++ cbn [length last_year fold_left]. unfold last_year.
              now replace (n + 1 + Z.of_nat (length rows))
                with (n + Z.of_nat (S (length rows))) by lia.
           ++ rewrite Hp', Hp. cbn. now rewrite <- app_assoc.
Qed.

Lemma yearly_file_any body f t dir filename rows vy s r s' :
  (forall t, puts_row (body t) (f t)) ->
  hdfs_csv E (Py.unixify (Py.path_join dir [filename])) = Some rows ->
  yearly_file E body t dir filename vy s = (r, s') ->
  exists new, puts s' = puts s ++ new /\ prefix_or_whole (f t) t rows vy r new.
Proof.
  intros Hbody Hfile H. unfold yearly_file in H.
  apply bind_inv in H as [(e & Hr & ->) | (rows' & s1 & Hr & H)].
  - exists []. split; [| now exists 0%nat].
    unfold hdfs_client_read_csv in Hr.
    apply bind_inv in Hr as [(e' & Hx & _) | (a & s1 & Hx & Hk)].
    + apply ext_inv in Hx as [-> _]. cbn. now rewrite app_nil_r.
    + rewrite Hfile in Hk. discriminate.
  - assert (Hs1 : puts s1 = puts s /\ rows' = rows).
    { unfold hdfs_client_read_csv in Hr.
      apply bind_inv in Hr as [(e' & Hx & ?) | (a & s2 & Hx & Hk)]; [discriminate|].
      apply ext_inv in Hx as [-> _]. rewrite Hfile in Hk. now injection Hk as <- <-. }
    destruct Hs1 as [Hp1 ->].
    apply bind_inv in H as [(e & Hloop & ->) | ([[n cols] vy'] & s2 & Hloop & H)].
    + (* the row loop raised *)
      destruct rows as [|header data].
      * discriminate.
      * cbn [csv_rows] in Hloop.
        apply bind_inv in Hloop as [(e' & Hx & _) | ([] & s2 & Hx & Hloop)].
        -- apply ext_inv in Hx as [-> _]. exists []. split; [| now exists 0%nat].
           cbn. now rewrite Hp1, app_nil_r.
        -- apply ext_inv in Hx as [-> _]. cbn [Z.eqb] in Hloop.
           apply (csv_rows_any _ _ (Hbody t)) in Hloop as [(e' & k & _ & Hp) | (? & _)];
             [| discriminate | lia].
           exists (map (f t) (List.firstn k data)). split; [| now exists k].
           rewrite Hp. cbn. now rewrite Hp1.
    + (* the row loop returned *)
      assert (Hloop' : n = Z.of_nat (length rows) /\ cols = List.hd [] rows /\
                       vy' = last_year (List.tl rows) vy /\
                       puts s2 = puts s ++ map (f t) (List.tl rows)).
      { destruct rows as [|header data].
        - injection Hloop as <- <- <- <-. now rewrite Hp1, app_nil_r.
        - cbn [csv_rows] in Hloop.
          apply bind_inv in Hloop as [(e' & Hx & ?) | ([] & s3 & Hx & Hloop)]; [discriminate|].
          apply ext_inv in Hx as [-> _]. cbn [Z.eqb] in Hloop.
          apply (csv_rows_any _ _ (Hbody t)) in Hloop as [(e' & k & ? & _) | (Hv & Hp)];
            [discriminate | | lia].
          injection Hv as -> -> ->. cbn [List.tl List.hd length].
          split; [lia|]. split; [reflexivity|]. split; [reflexivity|].
          rewrite Hp. cbn. now rewrite Hp1. }
      destruct Hloop' as (-> & -> & -> & Hp2).
      apply bind_inv in H as [(e & Hn & _) | (date & s3 & Hn & H)]; [discriminate|].
      injection Hn as <- <-.
      destruct (last_year (List.tl rows) vy) as [year|] eqn:Hyear.
      * cbn [or_raise] in H. erewrite bind_ok in H by reflexivity.
        apply bind_table_put_inv in H as [(e & -> & Hp) | H].
        -- exists (map (f t) (List.tl rows)). split; [now rewrite Hp, Hp2|].
           exists (length (List.tl rows)). now rewrite firstn_all.
        -- injection H as <- <-. eexists. split.
           ++ cbn. rewrite Hp2, <- app_assoc. reflexivity.
           ++ exists year, (clock E (ticks s2)). rewrite Hyear.
              split; [reflexivity|]. split; reflexivity.
      * cbn [or_raise] in H. injection H as <- <-.
        exists (map (f t) (List.tl rows)). split; [exact Hp2|].
        exists (length (List.tl rows)). now rewrite firstn_all.
Qed.
End AnyRun.

(** X4.  Whatever the external calls raise and whatever the rows hold, a
    file of the income or of the vehicle handler leaves in the store the
    puts of a prefix of its data rows, in order: when processing the file
    raises (a short row, a failed put, an unbound year) the metadata row
    is not among them; when it returns, all data rows were put and the
    metadata row follows them, with the row count one less than the number
    of rows read. *)
Theorem X4_partial_load_is_a_prefix (E : Loader.env) :
  (forall t dir filename rows vy s r s',
      Loader.hdfs_csv E (Py.unixify (Py.path_join dir [filename])) = Some rows ->
      Loader.yearly_file E (Loader.income_row E) t dir filename vy s = (r, s') ->
      exists new,
        Loader.puts s' = Loader.puts s ++ new /\
        prefix_or_whole (income_put t) t rows vy r new) /\
  (forall t dir filename rows vy s r s',
      Loader.hdfs_csv E (Py.unixify (Py.path_join dir [filename])) = Some rows ->
      Loader.yearly_file E (Loader.veh_row E) t dir filename vy s = (r, s') ->
      exists new,
        Loader.puts s' = Loader.puts s ++ new /\
        prefix_or_whole (veh_put t) t rows vy r new).
Proof.
  split; intros t dir filename rows vy s r s' Hfile Hrun.
  - exact (yearly_file_any E (Loader.income_row E) income_put t dir filename rows vy s r s'
             (income_row_puts E) Hfile Hrun).
  - exact (yearly_file_any E (Loader.veh_row E) veh_put t dir filename rows vy s r s'
             (veh_row_puts E) Hfile Hrun).
Qed.

Lemma X4_partial_load_is_a_prefix_witness :
  let rows := [income_header; income_row_2021; income_row_2020; income_short_row] in
  let E := failing_at 5 nothing (serve "dir/income.csv" rows) nothing in
  let run := Loader.yearly_file E (Loader.income_row E) "opendatabcn-income" "dir"
               "income.csv" None connected in
  fst run = Raise (ExternalError "TTransportException") /\
  Loader.puts (snd run) = [income_put "opendatabcn-income" income_row_2021] /\
  exists new,
    Loader.puts (snd run) = Loader.puts connected ++ new /\
    prefix_or_whole (income_put "opendatabcn-income") "opendatabcn-income" rows None
      (fst run) new.
Proof.
  intros rows E run. split; [reflexivity|]. split; [reflexivity|].
  apply (proj1 (X4_partial_load_is_a_prefix E) "opendatabcn-income" "dir" "income.csv" rows
           None connected (fst run) (snd run) eq_refl).
  apply surjective_pairing.
Defined.

(** ** A header-only file after a file with data *)

(** X5.  In the income handler [valid_year] outlives the file it was read
    from.  When no external call raises, a file with data rows followed in
    the same listing by a file that holds only a header is loaded without
    an error, and the metadata row of the second file is put under the
    key of the first file's last year: the two metadata puts share their
    row key, so that in the store the row count recorded for that year
    becomes 0. *)
Theorem X5_header_only_file_reuses_year (E : Loader.env) t dir f1 f2 header1 rows1 header2 vy s :
  no_faults (Loader.faults E) ->
  Py.endswith f1 ".csv" = true ->
  Py.endswith f2 ".csv" = true ->
  Loader.hdfs_csv E (Py.unixify (Py.path_join dir [f1])) = Some (header1 :: rows1) ->
  Forall (fun row => (7 <= length row)%nat) rows1 ->
  rows1 <> [] ->
  Loader.hdfs_csv E (Py.unixify (Py.path_join dir [f2])) = Some [header2] ->
  exists year date1 date2 s',
    last_year rows1 vy = Some year /\
    Loader.yearly_files E (Loader.income_row E) t dir [f1; f2] vy s = (Ok tt, s') /\
    let key := t +:+ "_" +:+ year +:+ "_metadata" in
    let meta1 := metadata_put t key (Py.str_of_int (Z.of_nat (length rows1)))
                   (Py.str_of_len header1) (Py.join "," header1) date1 in
    let meta2 := metadata_put t key "0" (Py.str_of_len header2) (Py.join "," header2) date2 in
    Loader.puts s' = Loader.puts s ++ map (income_put t) rows1 ++ [meta1; meta2] /\
    forall cells,
      default ∅ (HBase.put meta2 (HBase.put meta1 cells) !! (t, key)) !! "metadata:num_rows"
      = Some "0".
Proof.
  intros Hnf Hf1 Hf2 Hfile1 Hwide Hne Hfile2.
  destruct (last_year_some rows1 vy Hne) as [year Hyear].
  destruct (yearly_file_ok E Hnf (Loader.income_row E) _ income_put t dir f1 header1 rows1
              vy year s (income_row_ok E Hnf) Hfile1 Hwide Hyear)
    as (date1 & s1 & Hrun1 & Hputs1 & _).
  destruct (yearly_file_ok E Hnf (Loader.income_row E) _ income_put t dir f2 header2 []
              (Some year) year s1 (income_row_ok E Hnf) Hfile2 (List.Forall_nil _) eq_refl)
    as (date2 & s2 & Hrun2 & Hputs2 & _).
  exists year, date1, date2, s2. split; [exact Hyear|]. split.
  - cbn [Loader.yearly_files]. rewrite Hf1, Hf2.
    erewrite bind_ok; [| exact Hrun1]. erewrite bind_ok; [| exact Hrun2]. reflexivity.
  - cbn zeta. split.
    + rewrite Hputs2, Hputs1. cbn [map app length]. rewrite <- !app_assoc. reflexivity.
    + intros cells. unfold HBase.put at 1. cbn [Loader.put_table Loader.put_key metadata_put].
      rewrite lookup_insert_eq. cbn [from_option id].
      apply lookup_union_Some_l. unfold metadata_put. cbn [Loader.put_columns].
      rewrite list_to_map_cons. apply lookup_insert_eq.
Qed.

Lemma X5_header_only_file_reuses_year_witness :
  let E := quiet_env nothing
             (fun path => if String.eqb path "dir/income_2021.csv"
                          then Some [income_header; income_row_2021]
                          else Some [income_header]) nothing in
  exists year date1 date2 s',
    last_year [income_row_2021] None = Some year /\
    Loader.yearly_files E (Loader.income_row E) "opendatabcn-income" "dir"
      ["income_2021.csv"; "income_2022.csv"] None connected = (Ok tt, s') /\
    let key := "opendatabcn-income" +:+ "_" +:+ year +:+ "_metadata" in
    let meta1 := metadata_put "opendatabcn-income" key (Py.str_of_int (Z.of_nat 1))
                   (Py.str_of_len income_header) (Py.join "," income_header) date1 in
    let meta2 := metadata_put "opendatabcn-income" key "0" (Py.str_of_len income_header)
                   (Py.join "," income_header) date2 in
    Loader.puts s' = Loader.puts connected
                       ++ map (income_put "opendatabcn-income") [income_row_2021]
                       ++ [meta1; meta2] /\
    forall cells,
      default ∅ (HBase.put meta2 (HBase.put meta1 cells) !! ("opendatabcn-income", key))
        !! "metadata:num_rows" = Some "0".
Proof.
  intros E.
  apply (X5_header_only_file_reuses_year E "opendatabcn-income" "dir" "income_2021.csv"
           "income_2022.csv" income_header [income_row_2021] income_header None connected
           (fun _ => eq_refl) eq_refl eq_refl eq_refl).
  - repeat constructor.
  - discriminate.
  - reflexivity.
Defined.

(** ** The stored remainder of a listing *)

Lemma remaining_cons k v (rest : list (string * Py.pyval)) :
  Loader.remaining ((k, v) :: rest)
  = if Loader.is_key_field k then Loader.remaining rest
    else (k, Loader.encode_value v) :: Loader.remaining rest.
Proof.
  unfold Loader.remaining. destruct (Loader.is_key_field k) eqn:Hk.
  - rewrite filter_cons_False; [reflexivity|]. cbn [fst]. rewrite Hk. exact id.
  - rewrite filter_cons_True; [reflexivity|]. cbn [fst]. rewrite Hk. exact I.
Qed.

Lemma remaining_keeps d k :
  Loader.is_key_field k = false ->
  Py.dict_get k (Loader.remaining d) = option_map Loader.encode_value (Py.dict_get k d).
Proof.
  intros Hk. induction d as [|[k' v] d IH]; [reflexivity|].
  rewrite remaining_cons. cbn [Py.dict_get].
  destruct (String.eqb_spec k' k) as [->|Hne].
  - rewrite Hk. cbn [Py.dict_get]. now rewrite String.eqb_refl.
  - destruct (Loader.is_key_field k'); [exact IH|].
    cbn [Py.dict_get].
    destruct (String.eqb_spec k' k) as [->|_]; [contradiction | exact IH].
Qed.

Lemma remaining_drops d k :
  Loader.is_key_field k = true -> Py.dict_get k (Loader.remaining d) = None.
Proof.
  intros Hk. induction d as [|[k' v] d IH]; [reflexivity|].
  rewrite remaining_cons.
  destruct (Loader.is_key_field k') eqn:Hk'; [exact IH|].
  cbn [Py.dict_get].
  destruct (String.eqb_spec k' k) as [->|_]; [congruence | exact IH].
Qed.

(** X6.  The mapping stored for a listing holds none of [propertyCode],
    [neighborhood] and [district]; every other field of the record is
    there, in the order of the record, with its value unchanged except
    that text is encoded to bytes, so that no top-level value of the
    stored mapping is text. *)
Theorem X6_remaining_drops_only_the_key_fields (d : list (string * Py.pyval)) :
  (forall k, Loader.is_key_field k = true -> Py.dict_get k (Loader.remaining d) = None) /\
  (forall k, Loader.is_key_field k = false ->
             Py.dict_get k (Loader.remaining d)
             = option_map Loader.encode_value (Py.dict_get k d)) /\
  map fst (Loader.remaining d)
  = List.filter (fun k => negb (Loader.is_key_field k)) (map fst d) /\
  (forall k s, Py.dict_get k (Loader.remaining d) <> Some (Py.PStr s)).
Proof.
  split; [apply remaining_drops|]. split; [apply remaining_keeps|]. split.
  - induction d as [|[k' v] d IH]; [reflexivity|].
    rewrite remaining_cons. cbn [List.filter map fst].
    destruct (Loader.is_key_field k'); cbn [negb map fst]; now rewrite IH.
  - intros k s H.
    destruct (Loader.is_key_field k) eqn:Hk.
    + now rewrite (remaining_drops d k Hk) in H.
    + rewrite (remaining_keeps d k Hk) in H.
      destruct (Py.dict_get k d) as [[]|]; discriminate.
Qed.

Lemma X6_remaining_drops_only_the_key_fields_witness :
  Py.dict_get "district" (Loader.remaining listing_P1) = None /\
  Py.dict_get "price" (Loader.remaining listing_P1)
  = option_map Loader.encode_value (Py.dict_get "price" listing_P1).
Proof.
  destruct (X6_remaining_drops_only_the_key_fields listing_P1) as (Hdrop & Hkeep & _).
  split; [apply Hdrop | apply Hkeep]; reflexivity.
Defined.

(** ** Row keys of the yearly handlers *)

Lemma yearly_key_inj t d1 n1 y1 d2 n2 y2 :
  Py.contains Py.underscore d1 = false -> Py.contains Py.underscore n1 = false ->
  Py.contains Py.underscore d2 = false -> Py.contains Py.underscore n2 = false ->
  t +:+ "_" +:+ d1 +:+ "_" +:+ n1 +:+ "_" +:+ y1
  = t +:+ "_" +:+ d2 +:+ "_" +:+ n2 +:+ "_" +:+ y2 ->
  d1 = d2 /\ n1 = n2 /\ y1 = y2.
Proof.
  intros Hd1 Hn1 Hd2 Hn2 H.
  apply (String.app_inj t) in H. injection H as H.
  assert (Hd : d1 = d2) by exact (token_prefix_inj _ _ _ _ _ Hd1 Hd2 H).
  subst d2. apply (String.app_inj d1) in H. injection H as H.
  assert (Hn : n1 = n2) by exact (token_prefix_inj _ _ _ _ _ Hn1 Hn2 H).
  subst n2. apply (String.app_inj n1) in H. injection H as H.
  now repeat split.
Qed.

(** X7.  The row key of the income and of the vehicle handler joins the
    district code, the neighbourhood code and the year with underscores
    and escapes nothing.  On rows whose two codes hold no underscore the
    key determines the three fields, so two rows share a key only when
    they agree on all three; a code that holds an underscore breaks this:
    district [a_b] with neighbourhood [c] and district [a] with
    neighbourhood [b_c] get the same key. *)
Theorem X7_yearly_row_key (t : string) :
  (forall row1 row2,
      Py.contains Py.underscore (cell row1 1) = false ->
      Py.contains Py.underscore (cell row1 3) = false ->
      Py.contains Py.underscore (cell row2 1) = false ->
      Py.contains Py.underscore (cell row2 3) = false ->
      (Loader.put_key (income_put t row1) = Loader.put_key (income_put t row2) \/
       Loader.put_key (veh_put t row1) = Loader.put_key (veh_put t row2)) ->
      cell row1 1 = cell row2 1 /\ cell row1 3 = cell row2 3 /\ cell row1 0 = cell row2 0) /\
  (forall y a b c x1 x2 rest1 rest2,
      Loader.put_key (income_put t (y :: (a +:+ "_" +:+ b) :: x1 :: c :: rest1))
      = Loader.put_key (income_put t (y :: a :: x2 :: (b +:+ "_" +:+ c) :: rest2)) /\
      Loader.put_key (veh_put t (y :: (a +:+ "_" +:+ b) :: x1 :: c :: rest1))
      = Loader.put_key (veh_put t (y :: a :: x2 :: (b +:+ "_" +:+ c) :: rest2))).
Proof.
  split.
  - intros row1 row2 Hd1 Hn1 Hd2 Hn2 [H|H];
      exact (yearly_key_inj t _ _ _ _ _ _ Hd1 Hn1 Hd2 Hn2 H).
  - intros y a b c x1 x2 rest1 rest2.
    unfold income_put, veh_put, cell. cbn [Loader.put_key nth].
    now rewrite !append_assoc.
Qed.

Lemma X7_yearly_row_key_witness :
  let other := ["2021"; "1"; "Ciutat Vella"; "1"; "el Raval"; "47000"; "75"] in
  cell income_row_2021 1 = cell other 1 /\
  cell income_row_2021 3 = cell other 3 /\
  cell income_row_2021 0 = cell other 0.
Proof.
  intros other.
  apply (proj1 (X7_yearly_row_key "opendatabcn-income") income_row_2021 other
           eq_refl eq_refl eq_refl eq_refl).
  left. reflexivity.
Defined.

(** ** Creating a table *)

Lemma create_table_tables (E : Loader.env) name flag c s :
  no_faults (Loader.faults E) ->
  Loader.connection s = Some c ->
  exists s',
    Loader.create_table E name flag s = (Ok tt, s') /\
    Loader.tables s'
    = (if Loader.has_table name (Loader.tables s) then Loader.tables s
       else Loader.tables s ++ [(name, families_for flag)]) /\
    Loader.puts s' = Loader.puts s /\
    Loader.connection s' = Some c /\
    Loader.closed s' = Loader.closed s.
Proof.
  intros Hnf Hc.
  unfold Loader.create_table, try_except, Loader.create_table_body, Loader.the_connection.
  erewrite bind_ok; [| erewrite bind_ok; [| reflexivity]; rewrite Hc; reflexivity].
  erewrite bind_ok; [| apply ext_ok, Hnf].
  erewrite bind_ok; [| reflexivity].
  cbn [Loader.tables Loader.tick].
  destruct (Loader.has_table name (Loader.tables s)).
  - eexists; split; [reflexivity|]. now repeat split.
  - destruct flag; cbn [negb];
      (erewrite bind_ok; [| apply ext_ok, Hnf]);
      eexists; (split; [reflexivity|]); now repeat split.
Qed.

Lemma has_table_added name families ts :
  Loader.has_table name (ts ++ [(name, families)]) = true.
Proof.
  unfold Loader.has_table. rewrite existsb_app. cbn. rewrite String.eqb_refl.
  now rewrite orb_true_r.
Qed.

(** X8.  When no external call raises and the loader is connected,
    [create_table] creates a table only when no table of that name exists,
    with the two generic families or, under the flag, the three families
    of the lookup table; a table that exists is left as it is whatever
    the flag says, so a second call, with either flag, changes nothing.
    No call puts a row or touches the connection. *)
Theorem X8_create_table_creates_once (E : Loader.env) name flag1 flag2 c s :
  no_faults (Loader.faults E) ->
  Loader.connection s = Some c ->
  exists s1 s2,
    Loader.create_table E name flag1 s = (Ok tt, s1) /\
    Loader.create_table E name flag2 s1 = (Ok tt, s2) /\
    Loader.tables s1
    = (if Loader.has_table name (Loader.tables s) then Loader.tables s
       else Loader.tables s ++ [(name, families_for flag1)]) /\
    Loader.has_table name (Loader.tables s1) = true /\
    Loader.tables s2 = Loader.tables s1 /\
    Loader.puts s2 = Loader.puts s /\
    Loader.connection s2 = Some c.
Proof.
  intros Hnf Hc.
  destruct (create_table_tables E name flag1 c s Hnf Hc) as (s1 & Hr1 & Ht1 & Hp1 & Hc1 & _).
  destruct (create_table_tables E name flag2 c s1 Hnf Hc1) as (s2 & Hr2 & Ht2 & Hp2 & Hc2 & _).
  assert (Hhas : Loader.has_table name (Loader.tables s1) = true).
  { rewrite Ht1. destruct (Loader.has_table name (Loader.tables s)) eqn:H; [exact H|].
    apply has_table_added. }
  exists s1, s2. repeat split; try assumption.
  - now rewrite Ht2, Hhas.
  - now rewrite Hp2.
Qed.

Lemma X8_create_table_creates_once_witness :
  exists s1 s2,
    Loader.create_table (quiet_env nothing nothing nothing) "lookup_tables" false connected
    = (Ok tt, s1) /\
    Loader.create_table (quiet_env nothing nothing nothing) "lookup_tables" true s1
    = (Ok tt, s2) /\
    Loader.tables s1 = [("lookup_tables", ["data"; "metadata"])] /\
    Loader.has_table "lookup_tables" (Loader.tables s1) = true /\
    Loader.tables s2 = Loader.tables s1 /\
    Loader.puts s2 = Loader.puts connected /\
    Loader.connection s2 = Loader.connection connected.
Proof.
  apply (X8_create_table_creates_once (quiet_env nothing nothing nothing) "lookup_tables"
           false true _ connected (fun _ => eq_refl) eq_refl).
Defined.

(** ** The date of a listings file name *)







(** ** Paths of local files *)

Lemma length_append a b : String.length (a +:+ b) = (String.length a + String.length b)%nat.
Proof. induction a as [|x a IH]; [reflexivity|]. rewrite append_cons. cbn. now rewrite IH. Qed.

Lemma substring_all s : String.substring 0 (String.length s) s = s.
Proof. induction s as [|a s IH]; [reflexivity|]. cbn. now rewrite IH. Qed.

Lemma substring_skip p r n :
  String.substring (String.length p) n (p +:+ r) = String.substring 0 n r.
Proof. induction p as [|a p IH]; [reflexivity|]. rewrite append_cons. cbn. exact IH. Qed.

Lemma substring_prefix p r : String.substring 0 (String.length p) (p +:+ r) = p.
Proof.
  induction p as [|a p IH]; [now destruct r|]. rewrite append_cons. cbn. now rewrite IH.
Qed.

Lemma after_last_slash_none base :
  Py.contains Py.slash base = false -> Py.after_last_slash base = 0%nat.
Proof.
  induction base as [|a base IH]; intros H; [reflexivity|].
  cbn [Py.contains] in H. apply orb_false_iff in H as [Ha Hb].
  cbn [Py.after_last_slash]. now rewrite (IH Hb), Ha.
Qed.

Lemma after_last_slash_app p base :
  Py.contains Py.slash base = false ->
  Py.after_last_slash (p +:+ String Py.slash base) = S (String.length p).
Proof.
  intros Hb. induction p as [|a p IH].
  - change ("" +:+ String Py.slash base) with (String Py.slash base).
    cbn [Py.after_last_slash]. rewrite (after_last_slash_none base Hb).
    unfold Py.ch_eq. now rewrite Ascii.eqb_refl.
  - rewrite append_cons. cbn [Py.after_last_slash String.length]. now rewrite IH.
Qed.

(** [basename] of a path that ends with a name without slash. *)
Lemma basename_app p base :
  Py.contains Py.slash base = false -> Py.basename (p +:+ String Py.slash base) = base.
Proof.
  intros Hb. unfold Py.basename. rewrite (after_last_slash_app p base Hb).
  rewrite length_append. cbn [String.length].
  replace (String.length p + S (String.length base) - S (String.length p))%nat
    with (String.length base) by lia.
  change (S (String.length p)) with (String.length (String Py.slash p)) at 1.
  replace (p +:+ String Py.slash base) with ((p +:+ "/") +:+ base)
    by now rewrite append_assoc.
  replace (String.length (String Py.slash p)) with (String.length (p +:+ "/"))
    by (rewrite length_append; cbn; lia).
  rewrite substring_skip. apply substring_all.
Qed.

Lemma all_slashes_app x y : Py.all_slashes (x +:+ y) = Py.all_slashes x && Py.all_slashes y.
Proof.
  induction x as [|a x IH]; [reflexivity|].
  rewrite append_cons. cbn [Py.all_slashes]. now rewrite IH, andb_assoc.
Qed.

Lemma all_slashes_clean f :
  f <> "" -> Py.contains Py.slash f = false -> Py.all_slashes f = false.
Proof.
  destruct f as [|a f]; [congruence|]. intros _ H.
  cbn [Py.contains] in H. apply orb_false_iff in H as [Ha _].
  cbn [Py.all_slashes]. now rewrite Ha.
Qed.

Lemma rstrip_slash_clean f :
  f <> "" -> Py.contains Py.slash f = false -> Py.rstrip_slash (f +:+ "/") = f.
Proof.
  induction f as [|a f IH]; [congruence|]. intros _ H.
  cbn [Py.contains] in H. apply orb_false_iff in H as [Ha Hf].
  rewrite append_cons. cbn [Py.rstrip_slash].
  destruct f as [|b f].
  - cbn. now rewrite Ha.
  - rewrite IH by (congruence || assumption). reflexivity.
Qed.

Lemma rstrip_slash_app x y :
  Py.rstrip_slash y <> "" -> Py.rstrip_slash (x +:+ y) = x +:+ Py.rstrip_slash y.
Proof.
  intros Hy. induction x as [|a x IH]; [reflexivity|].
  rewrite !append_cons. cbn [Py.rstrip_slash]. rewrite IH.
  destruct (x +:+ Py.rstrip_slash y) eqn:Hx; [| reflexivity].
  destruct x; [| discriminate]. now cbn in Hx.
Qed.

(** [dirname] of a file in a directory whose name holds no slash. *)
Lemma dirname_app q f base :
  f <> "" -> Py.contains Py.slash f = false -> Py.contains Py.slash base = false ->
  Py.dirname (q +:+ f +:+ String Py.slash base) = q +:+ f.
Proof.
  intros Hne Hf Hb. unfold Py.dirname.
  replace (q +:+ f +:+ String Py.slash base) with ((q +:+ f) +:+ String Py.slash base)
    by now rewrite append_assoc.
  rewrite (after_last_slash_app (q +:+ f) base Hb).
  replace ((q +:+ f) +:+ String Py.slash base) with (((q +:+ f) +:+ "/") +:+ base)
    by now rewrite !append_assoc.
  replace (S (String.length (q +:+ f))) with (String.length ((q +:+ f) +:+ "/"))
    by (rewrite (length_append (q +:+ f) "/"); cbn; lia).
  rewrite substring_prefix.
  assert (Hhead : (q +:+ f) +:+ "/" = q +:+ (f +:+ "/")) by now rewrite append_assoc.
  rewrite Hhead.
  assert (Hnot : Py.all_slashes (q +:+ f +:+ "/") = false).
  { rewrite !all_slashes_app, (all_slashes_clean f Hne Hf). now rewrite andb_false_r. }
  rewrite Hnot.
  destruct (String.eqb_spec (q +:+ f +:+ "/") "") as [Hempty|_].
  - rewrite Hempty in Hnot. discriminate.
  - cbn [negb andb].
    rewrite rstrip_slash_app; rewrite (rstrip_slash_clean f Hne Hf); [reflexivity | exact Hne].
Qed.

Lemma split_clean c f : Py.contains c f = false -> Py.split c f = [f].
Proof.
  induction f as [|a f IH]; intros H; [reflexivity|].
  cbn [Py.contains] in H. apply orb_false_iff in H as [Ha Hf].
  cbn [Py.split]. now rewrite Ha, (IH Hf).
Qed.

Lemma split_app_last c x f :
  Py.contains c f = false ->
  exists t ts, Py.split c (x +:+ String c f) = t :: ts ++ [f].
Proof.
  intros Hf. induction x as [|a x (t & ts & IH)].
  - exists "", []. change ("" +:+ String c f) with (String c f).
    cbn [Py.split]. unfold Py.ch_eq. now rewrite Ascii.eqb_refl, (split_clean c f Hf).
  - rewrite append_cons. cbn [Py.split]. rewrite IH.
    destruct (Py.ch_eq a c); [now exists "", (t :: ts) | now exists (String a t), ts].
Qed.

Lemma last_token_app c x f :
  Py.contains c f = false -> Py.last_token c (x +:+ String c f) = f.
Proof.
  intros Hf. unfold Py.last_token.
  destruct (split_app_last c x f Hf) as (t & ts & ->).
  change (t :: ts ++ [f]) with ((t :: ts) ++ [f]). apply List.last_last.
Qed.

Lemma replace_app a b x y : Py.replace a b (x +:+ y) = Py.replace a b x +:+ Py.replace a b y.
Proof.
  induction x as [|c x IH]; [reflexivity|].
  rewrite append_cons. cbn [Py.replace]. now rewrite IH.
Qed.

Lemma replace_clean a b x : Py.contains a x = false -> Py.replace a b x = x.
Proof.
  induction x as [|c x IH]; intros H; [reflexivity|].
  cbn [Py.contains] in H. apply orb_false_iff in H as [Hc Hx].
  cbn [Py.replace]. now rewrite Hc, (IH Hx).
Qed.

(** The staging folder of a local file is named after the directory that
    holds the file. *)
Lemma staging_folder_app temp q f base :
  f <> "" ->
  Py.contains Py.slash f = false -> Py.contains Py.backslash f = false ->
  Py.contains Py.slash base = false ->
  Collector.staging_folder temp (q +:+ String Py.slash f +:+ String Py.slash base)
  = Py.unixify (Py.path_join temp [f]).
Proof.
  intros Hne Hf Hbs Hb. unfold Collector.staging_folder.
  replace (q +:+ String Py.slash f +:+ String Py.slash base)
    with ((q +:+ "/") +:+ f +:+ String Py.slash base)
    by now rewrite !append_assoc.
  rewrite (dirname_app (q +:+ "/") f base Hne Hf Hb).
  unfold Py.unixify at 2. rewrite append_assoc, !replace_app.
  rewrite (replace_clean _ _ f Hbs).
  change (Py.replace Py.backslash Py.slash "/") with "/".
  change ("/" +:+ f) with (String Py.slash f).
  now rewrite (last_token_app Py.slash _ f Hf).
Qed.

(** ** Uploading local files *)

Lemma for_each_ext {S A} (l : list A) (body1 body2 : A -> M S unit) s :
  (forall x s', body1 x s' = body2 x s') -> for_each l body1 s = for_each l body2 s.
Proof.
  intros H. revert s. induction l as [|x l IH]; intros s; [reflexivity|].
  cbn [for_each]. unfold bind. rewrite H.
  destruct (body2 x s) as [[u|e] s']; [apply IH | reflexivity].
Qed.

Section Upload.
Import Collector.
Variable E : env.
Hypothesis Hnf : no_faults (faults E).

Lemma upload_file_to_hdfs_ok filepath data dir c s :
  client s = Some c ->
  exists s',
    upload_file_to_hdfs E filepath data dir s = (Ok tt, s') /\
    client s' = Some c /\
    writes s' = writes s ++ [(Py.unixify (Py.path_join dir [Py.basename filepath]), data)] /\
    makedirs_calls s' = makedirs_calls s /\
    closed s' = closed s /\
    hdfs_paths s ⊆ hdfs_paths s'.
Proof.
  intros Hc. unfold upload_file_to_hdfs, try_except, upload_file_to_hdfs_body.
  erewrite bind_ok; [| eapply (client_write_ok E Hnf), Hc].
  eexists. split; [reflexivity|]. cbn. repeat split; try assumption.
  apply union_subseteq_r.
Qed.

(** The loop of an upload over files whose content is [data_of] the file. *)
Lemma upload_loop_ok (read : string -> M state string) (data_of : string -> string) temp files :
  (forall f s, In f files -> read f s = (Ok (data_of f), tick s)) ->
  forall c s,
    client s = Some c ->
    exists s',
      for_each files (fun filepath =>
        let hdfs_dir_path := staging_folder temp filepath in
        create_hdfs_dir E hdfs_dir_path ;;;
        data_bytes <- read filepath ;;
        upload_file_to_hdfs E filepath data_bytes hdfs_dir_path) s = (Ok tt, s') /\
      client s' = Some c /\
      writes s' = writes s ++ map (fun f => staged_upload temp f (data_of f)) files /\
      closed s' = closed s /\
      (forall f, In f files -> staging_folder temp f ∈ hdfs_paths s') /\
      hdfs_paths s ⊆ hdfs_paths s'.
Proof.
  induction files as [|f files IH]; intros Hread c s Hc.
  - exists s. cbn. rewrite app_nil_r.
    split; [reflexivity|]. split; [exact Hc|]. split; [reflexivity|]. split; [reflexivity|].
    split; [intros ? [] | reflexivity].
  - destruct (create_hdfs_dir_ok E Hnf (staging_folder temp f) c s Hc)
      as (s1 & Hr1 & Hc1 & Hw1 & Hcl1 & _ & Hin1 & Hsub1).
    destruct (upload_file_to_hdfs_ok f (data_of f) (staging_folder temp f) c (tick s1) Hc1)
      as (s2 & Hr2 & Hc2 & Hw2 & _ & Hcl2 & Hsub2).
    destruct (IH (fun g s0 Hg => Hread g s0 (or_intror Hg)) c s2 Hc2)
      as (s3 & Hr3 & Hc3 & Hw3 & Hcl3 & Hin3 & Hsub3).
    exists s3. cbn [for_each].
    split.
    { erewrite bind_ok; [exact Hr3|].
      cbv zeta. erewrite bind_ok; [| exact Hr1].
      erewrite bind_ok; [| apply Hread; now left]. exact Hr2. }
    split; [exact Hc3|]. split.
    { rewrite Hw3, Hw2. cbn [writes tick]. rewrite Hw1. cbn [map].
      now rewrite <- app_assoc. }
    split; [rewrite Hcl3, Hcl2; exact Hcl1|].
    split.
    { intros g [<-|Hg]; [| now apply Hin3].
      apply Hsub3, Hsub2. exact Hin1. }
    etrans; [exact Hsub1|]. etrans; [exact Hsub2 | exact Hsub3].
Qed.
End Upload.

(** X10.  When no external call raises and the client is set, the upload
    of the local CSV files returns after writing, for every file the
    search found and in that order, the rows of the file, fields joined by
    commas and rows by newlines, at the base name of the file inside the
    staging folder named after the file's directory; the upload of the
    local JSON files writes in the same places the re-serialised document.
    The staging directory and every staging folder exist afterwards, and
    the client is not closed. *)
Theorem X10_upload_writes_every_file (E : Collector.env) (s : Collector.state)
        (c : Collector.hdfs_client) (hdfs_dir : string) :
  no_faults (Collector.faults E) ->
  Collector.client s = Some c ->
  (forall files rows_of,
      Collector.glob E (Py.unixify (Py.path_join (Collector.global_data_dir E) ["**/*.csv"]))
        = files ->
      (forall f, In f files -> Collector.local_csv E f = Some (rows_of f)) ->
      exists s',
        Collector.upload_csv_files_to_hdfs E hdfs_dir s = (Ok tt, s') /\
        Collector.writes s'
        = Collector.writes s
            ++ map (fun f => staged_upload (temp_dir_of E hdfs_dir) f (csv_bytes (rows_of f))) files /\
        Collector.closed s' = Collector.closed s /\
        temp_dir_of E hdfs_dir ∈ Collector.hdfs_paths s' /\
        (forall f, In f files ->
                   Collector.staging_folder (temp_dir_of E hdfs_dir) f ∈ Collector.hdfs_paths s')) /\
  (forall files text_of,
      Collector.glob E (Py.unixify (Py.path_join (Collector.global_data_dir E) ["**/*.json"]))
        = files ->
      (forall f, In f files -> Collector.local_json E f = Some (text_of f)) ->
      exists s',
        Collector.upload_json_files_to_hdfs E hdfs_dir s = (Ok tt, s') /\
        Collector.writes s'
        = Collector.writes s
            ++ map (fun f => staged_upload (temp_dir_of E hdfs_dir) f (text_of f)) files /\
        Collector.closed s' = Collector.closed s /\
        temp_dir_of E hdfs_dir ∈ Collector.hdfs_paths s' /\
        (forall f, In f files ->
                   Collector.staging_folder (temp_dir_of E hdfs_dir) f ∈ Collector.hdfs_paths s')).
Proof.
  intros Hnf Hc. split; intros files content Hglob Hlocal.
  - destruct (create_hdfs_dir_ok E Hnf (temp_dir_of E hdfs_dir) c (Collector.tick s) Hc)
      as (s1 & Hr1 & Hc1 & Hw1 & Hcl1 & _ & Hin1 & _).
    destruct (upload_loop_ok E Hnf
                (fun f => Collector.ext E ;;;
                          rows <- or_raise (ExternalError "OSError") (Collector.local_csv E f) ;;
                          ret (csv_bytes rows))
                (fun f => csv_bytes (content f)) (temp_dir_of E hdfs_dir) files) with (c := c) (s := s1)
      as (s2 & Hr2 & _ & Hw2 & Hcl2 & Hin2 & Hsub2).
    { intros f s0 Hf. erewrite bind_ok; [| apply collector_ext_ok, Hnf].
      rewrite (Hlocal f Hf). reflexivity. }
    { exact Hc1. }
    exists s2. split.
    { unfold Collector.upload_csv_files_to_hdfs, try_except,
        Collector.upload_csv_files_to_hdfs_body.
      erewrite bind_ok; [| apply collector_ext_ok, Hnf].
      rewrite Hglob. fold (temp_dir_of E hdfs_dir).
      erewrite bind_ok; [| exact Hr1].
      match goal with |- context [for_each files ?body s1] =>
        assert (Hloop : for_each files body s1 = (Ok tt, s2)) end.
      { rewrite <- Hr2. apply for_each_ext. intros f s0.
        cbv zeta. apply bind_ext. intros _ s'.
        unfold bind. destruct (Collector.ext E s') as [[u|e] s3]; [| reflexivity].
        destruct (Collector.local_csv E f); reflexivity. }
      now rewrite Hloop. }
    split; [now rewrite Hw2, Hw1|]. split; [now rewrite Hcl2, Hcl1|].
    split; [now apply Hsub2 | exact Hin2].
  - destruct (create_hdfs_dir_ok E Hnf (temp_dir_of E hdfs_dir) c (Collector.tick s) Hc)
      as (s1 & Hr1 & Hc1 & Hw1 & Hcl1 & _ & Hin1 & _).
    destruct (upload_loop_ok E Hnf
                (fun f => Collector.ext E ;;;
                          or_raise (ExternalError "JSONDecodeError") (Collector.local_json E f))
                content (temp_dir_of E hdfs_dir) files) with (c := c) (s := s1)
      as (s2 & Hr2 & _ & Hw2 & Hcl2 & Hin2 & Hsub2).
    { intros f s0 Hf. erewrite bind_ok; [| apply collector_ext_ok, Hnf].
      rewrite (Hlocal f Hf). reflexivity. }
    { exact Hc1. }
    exists s2. split.
    { unfold Collector.upload_json_files_to_hdfs, try_except,
        Collector.upload_json_files_to_hdfs_body.
      erewrite bind_ok; [| apply collector_ext_ok, Hnf].
      rewrite Hglob. fold (temp_dir_of E hdfs_dir).
      erewrite bind_ok; [| exact Hr1].
      match goal with |- context [for_each files ?body s1] =>
        assert (Hloop : for_each files body s1 = (Ok tt, s2)) end.
      { rewrite <- Hr2. apply for_each_ext. intros f s0.
        cbv zeta. apply bind_ext. intros _ s'.
        unfold bind. destruct (Collector.ext E s') as [[u|e] s3]; [| reflexivity].
        destruct (Collector.local_json E f); reflexivity. }
      now rewrite Hloop. }
    split; [now rewrite Hw2, Hw1|]. split; [now rewrite Hcl2, Hcl1|].
    split; [now apply Hsub2 | exact Hin2].
Qed.

Lemma X10_upload_writes_every_file_witness :
  let files := ["data/income/a.csv"; "backup/income/a.csv"] in
  let rows_of := fun f : string =>
                   if String.eqb f "data/income/a.csv" then [["x"; "y"]; ["1"; "2"]]
                   else [["x"; "y"]] in
  let E := quiet_local (fun _ => files) (fun f => Some (rows_of f)) nothing in
  exists s',
    Collector.upload_csv_files_to_hdfs E "csv" collecting = (Ok tt, s') /\
    Collector.writes s'
    = Collector.writes collecting
        ++ map (fun f => staged_upload (temp_dir_of E "csv") f (csv_bytes (rows_of f))) files /\
    Collector.closed s' = Collector.closed collecting /\
    temp_dir_of E "csv" ∈ Collector.hdfs_paths s' /\
    (forall f, In f files ->
               Collector.staging_folder (temp_dir_of E "csv") f ∈ Collector.hdfs_paths s').
Proof.
  intros files rows_of E.
  apply (proj1 (X10_upload_writes_every_file E collecting _ "csv" (fun _ => eq_refl) eq_refl)
           files rows_of eq_refl).
  intros f _. reflexivity.
Defined.

(** X11.  Of the path of a local file only the name of the directory
    that holds it and the name of the file reach the staging area: a file
    [.../f/base] is staged at [base] in the folder [f] of the staging
    directory.  Hence two local files with the same name, in directories
    that have the same name, are written to one and the same staged path,
    wherever those directories are. *)
Theorem X11_staging_keeps_the_last_directory (temp q f base data : string) :
  f <> "" ->
  Py.contains Py.slash f = false ->
  Py.contains Py.backslash f = false ->
  Py.contains Py.slash base = false ->
  staged_upload temp (q +:+ String Py.slash f +:+ String Py.slash base) data
  = (Py.unixify (Py.path_join (Py.unixify (Py.path_join temp [f])) [base]), data) /\
  forall q' data',
    fst (staged_upload temp (q' +:+ String Py.slash f +:+ String Py.slash base) data')
    = fst (staged_upload temp (q +:+ String Py.slash f +:+ String Py.slash base) data).
Proof.
  intros Hne Hf Hbs Hb.
  assert (H : forall q0 d,
             staged_upload temp (q0 +:+ String Py.slash f +:+ String Py.slash base) d
             = (Py.unixify (Py.path_join (Py.unixify (Py.path_join temp [f])) [base]), d)).
  { intros q0 d. unfold staged_upload.
    rewrite (staging_folder_app temp q0 f base Hne Hf Hbs Hb).
    replace (q0 +:+ String Py.slash f +:+ String Py.slash base)
      with ((q0 +:+ String Py.slash f) +:+ String Py.slash base)
      by now rewrite append_assoc.
    now rewrite (basename_app _ base Hb). }
  split; [apply H|]. intros q' data'. now rewrite !H.
Qed.

Lemma X11_staging_keeps_the_last_directory_witness :
  staged_upload "landing/csv" "data/income/a.csv" "x,y"
  = ("landing/csv/income/a.csv", "x,y") /\
  fst (staged_upload "landing/csv" "backup/2020/income/a.csv" "z")
  = fst (staged_upload "landing/csv" "data/income/a.csv" "x,y").
Proof.
  destruct (X11_staging_keeps_the_last_directory "landing/csv" "data" "income" "a.csv" "x,y"
              ltac:(discriminate) eq_refl eq_refl eq_refl) as [H1 H2].
  split; [exact H1 | exact (H2 "backup/2020" "z")].
Defined.

(** ** What staging does to the rows of a CSV file *)

Lemma join_cons sep x y rest :
  Py.join sep (x :: y :: rest) = x +:+ sep +:+ Py.join sep (y :: rest).
Proof. reflexivity. Qed.

(** X12.  The bytes staged for a CSV file do not tell where a field or a
    row ends: the rows are written without quoting, so a field that holds
    a comma is staged exactly like two fields, a field that holds a
    newline exactly like the end of one row and the start of the next, and
    a file whose only row is empty exactly like a file without rows. *)
Theorem X12_csv_bytes_lose_the_quoting :
  (forall x y fields rows,
      csv_bytes (((x +:+ "," +:+ y) :: fields) :: rows)
      = csv_bytes ((x :: y :: fields) :: rows)) /\
  (forall x y rows,
      csv_bytes ([x +:+ Collector.newline +:+ y] :: rows)
      = csv_bytes ([x] :: [y] :: rows)) /\
  csv_bytes [[]] = csv_bytes [].
Proof.
  split; [| split; [| reflexivity]].
  - intros x y fields rows. unfold csv_bytes. cbn [map].
    assert (H : Py.join "," ((x +:+ "," +:+ y) :: fields) = Py.join "," (x :: y :: fields)).
    { rewrite join_cons. destruct fields as [|f fields]; [reflexivity|].
      rewrite !join_cons. now rewrite !append_assoc. }
    now rewrite H.
  - intros x y rows. unfold csv_bytes. cbn [map].
    change (Py.join "," [x]) with x. change (Py.join "," [y]) with y.
    change (Py.join "," [x +:+ Collector.newline +:+ y]) with (x +:+ Collector.newline +:+ y).
    destruct rows as [|r rows]; [reflexivity|].
    cbn [map]. rewrite !join_cons. now rewrite !append_assoc.
Qed.

(** ** Names of harvested resources *)

Lemma contains_app c x y : Py.contains c (x +:+ y) = Py.contains c x || Py.contains c y.
Proof.
  induction x as [|a x IH]; [reflexivity|].
  rewrite append_cons. cbn [Py.contains]. now rewrite IH, orb_assoc.
Qed.

Lemma split_app c y rest :
  Py.contains c y = false -> Py.split c (y +:+ String c rest) = y :: Py.split c rest.
Proof.
  induction y as [|a y IH]; intros H.
  - change ("" +:+ String c rest) with (String c rest). cbn [Py.split].
    unfold Py.ch_eq. now rewrite Ascii.eqb_refl.
  - cbn [Py.contains] in H. apply orb_false_iff in H as [Ha Hy].
    rewrite append_cons. cbn [Py.split]. now rewrite Ha, (IH Hy).
Qed.

Lemma join_cons_char sep a t ts :
  Py.join sep (String a t :: ts) = String a (Py.join sep (t :: ts)).
Proof. destruct ts; reflexivity. Qed.

(** Splitting at a character and joining with it gives the text back. *)
Lemma join_split c s : Py.join (String c "") (Py.split c s) = s.
Proof.
  induction s as [|a s IH]; [reflexivity|].
  cbn [Py.split]. destruct (Py.ch_eq a c) eqn:Ha.
  - apply Ascii.eqb_eq in Ha as ->.
    destruct (Py.split c s) as [|t ts] eqn:Hs; [now apply split_not_nil in Hs|].
    rewrite join_cons. now rewrite IH.
  - destruct (Py.split c s) as [|t ts] eqn:Hs; [now apply split_not_nil in Hs|].
    rewrite join_cons_char. now rewrite IH.
Qed.

Lemma data_name_str_of year table ext :
  Py.contains Py.underscore year = false ->
  Py.contains Py.dot year = false ->
  Py.contains Py.dot table = false ->
  Collector.data_name_str (year +:+ "_" +:+ table +:+ "." +:+ ext) = table.
Proof.
  intros Hu Hd Ht. unfold Collector.data_name_str.
  replace (year +:+ "_" +:+ table +:+ "." +:+ ext)
    with ((year +:+ "_" +:+ table) +:+ String Py.dot ext)
    by now rewrite !append_assoc.
  rewrite first_token_app.
  - change (year +:+ "_" +:+ table) with (year +:+ String Py.underscore table).
    rewrite (split_app _ _ _ Hu). cbn [Py.drop_first].
    apply (join_split Py.underscore).
  - rewrite !contains_app, Hd, Ht. reflexivity.
Qed.

(** X13.  The staging folder of a harvested resource is what follows the
    first underscore in the part of its name before the first dot.  For a
    name [{year}_{table}.{ext}], with no underscore and no dot in [year]
    and no dot in [table], the folder is [table], and it is the very
    directory the loader lists for the source [table] when both are given
    the same landing directories; for a dot-free name with an underscore
    the first token, an underscore and the folder name give the name back;
    a name without an underscore before its first dot has the empty folder
    name. *)
Theorem X13_harvest_folder_names :
  (forall year table ext,
      Py.contains Py.underscore year = false ->
      Py.contains Py.dot year = false ->
      Py.contains Py.dot table = false ->
      Collector.data_name_str (year +:+ "_" +:+ table +:+ "." +:+ ext) = table /\
      forall (Ec : Collector.env) (El : Loader.env),
        Collector.arg_temporal_landing_dir Ec = Loader.arg_temporal_landing_dir El ->
        Collector.arg_temporal_landing_csv Ec = Loader.arg_temporal_landing_csv El ->
        Collector.new_folder_of Ec (year +:+ "_" +:+ table +:+ "." +:+ ext)
        = Loader.csv_dir_of El table) /\
  (forall name,
      Py.contains Py.dot name = false ->
      Py.contains Py.underscore name = true ->
      Py.first_token Py.underscore name +:+ "_" +:+ Collector.data_name_str name = name) /\
  (forall name,
      Py.contains Py.underscore (Py.first_token Py.dot name) = false ->
      Collector.data_name_str name = "").
Proof.
  split; [| split].
  - intros year table ext Hu Hd Ht.
    split; [exact (data_name_str_of year table ext Hu Hd Ht)|].
    intros Ec El Hdir Hcsv.
    unfold Collector.new_folder_of, Loader.csv_dir_of.
    rewrite (data_name_str_of year table ext Hu Hd Ht).
    unfold Collector.temporal_landing_dir, Collector.temporal_landing_csv,
      Loader.temporal_landing_dir, Loader.temporal_landing_csv.
    now rewrite Hdir, Hcsv.
  - intros name Hdot Hus. unfold Collector.data_name_str.
    rewrite (first_token_whole Py.dot name Hdot). unfold Py.first_token.
    pose proof (join_split Py.underscore name) as Hjs.
    destruct (Py.split Py.underscore name) as [|t ts] eqn:Hs; [now apply split_not_nil in Hs|].
    cbn [Py.drop_first]. destruct ts as [|t' ts].
    + cbn in Hjs. subst t.
      assert (Hclean : Py.contains Py.underscore name = false).
      { pose proof (first_token_clean Py.underscore name) as H.
        unfold Py.first_token in H. now rewrite Hs in H. }
      congruence.
    + rewrite join_cons in Hjs. exact Hjs.
  - intros name H. unfold Collector.data_name_str.
    now rewrite (split_clean _ _ H).
Qed.

Lemma X13_harvest_folder_names_witness :
  Collector.data_name_str "2019_veh_index_motoritzacio.csv" = "veh_index_motoritzacio" /\
  Collector.new_folder_of (quiet_collector nothing nothing) "2019_veh_index_motoritzacio.csv"
  = Loader.csv_dir_of (quiet_env nothing nothing nothing) "veh_index_motoritzacio" /\
  Py.first_token Py.underscore "2019_index_motor" +:+ "_"
    +:+ Collector.data_name_str "2019_index_motor" = "2019_index_motor" /\
  Collector.data_name_str "vehicles.csv" = "".
Proof.
  destruct X13_harvest_folder_names as (Hname & Hback & Hempty).
  destruct (Hname "2019" "veh_index_motoritzacio" "csv" eq_refl eq_refl eq_refl) as [H1 H2].
  split; [exact H1|].
  split; [exact (H2 (quiet_collector nothing nothing) (quiet_env nothing nothing nothing)
                   eq_refl eq_refl)|].
  split; [exact (Hback "2019_index_motor" eq_refl eq_refl) | exact (Hempty "vehicles.csv" eq_refl)].
Defined.

(** ** The data-collection mode of main.py *)




(** ** What a listings file leaves in the store when something fails *)

Section AnyListing.
Import Loader.
Variable E : env.




End AnyListing.


